(** * biTech Visual: the response parser and the FitLay orchestrator

    A shallow embedding of the three React components of the repository
    (VisualExtractor, VisualFitLay, VisualSuite) and the properties their
    specification states about them.

    - [JS] models the string primitives the components call
      ([split], [includes], [startsWith], [trim]) on sequences of UTF-16
      code units, together with abrupt completion ([TypeError]).
    - [VisualExtractor] holds the section views of the Visual DNA report
      and the upload validation of that tab.
    - [VisualFitLay] is the per-item orchestrator: React state as a record,
      every handler as a state transformer, every [await] as a suspended
      continuation that a later event resumes.
    - [VisualSuite] holds the reference-image list of the synthesis tab. *)

From Stdlib Require Import String Ascii NArith DecimalString.
From stdpp Require Import base option list gmap.

Local Open Scope N_scope.

(** ** JavaScript strings *)

Module JS.

(** A JavaScript string is a finite sequence of UTF-16 code units. *)
Abbreviation jsstring := (list N).

(** String literals of the source (all of them ASCII). *)
Definition str (s : string) : jsstring :=
  N_of_ascii <$> list_ascii_of_string s.

(** [s.startsWith(p)] *)
Fixpoint startsWith (s p : jsstring) {struct p} : bool :=
  match p, s with
  | [], _ => true
  | _ :: _, [] => false
  | c :: p', d :: s' => (c =? d) && startsWith s' p'
  end.

(** [s.includes(p)]: [p] occurs at some position of [s]. *)
Fixpoint includes (s p : jsstring) : bool :=
  startsWith s p ||
  match s with
  | [] => false
  | _ :: s' => includes s' p
  end.

(** [s.split(sep)] for a non-empty separator, scanning left to right.  The
    result always starts with the piece being accumulated.  When [sep]
    matches at the current position the piece is closed and the remaining
    [length sep - 1] code units of the match are skipped. *)
Fixpoint split_from (sep : jsstring) (skip : nat) (s : jsstring)
  : list jsstring :=
  match s with
  | [] => [[]]
  | c :: s' =>
      match skip with
      | S k => split_from sep k s'
      | O =>
          if startsWith s sep
          then [] :: split_from sep (pred (length sep)) s'
          else match split_from sep 0 s' with
               | piece :: rest => (c :: piece) :: rest
               | [] => [[c]]
               end
      end
  end.

Definition split (s sep : jsstring) : list jsstring := split_from sep 0 s.

(** [s.split(sep, limit)]: at most [limit] pieces are kept. *)
Definition split_limit (s sep : jsstring) (limit : nat) : list jsstring :=
  take limit (split s sep).

(** WhiteSpace and LineTerminator code points of ECMAScript, the ones
    [String.prototype.trim] removes. *)
Definition isWhiteSpace (c : N) : bool :=
  (c =? 9) || (c =? 10) || (c =? 11) || (c =? 12) || (c =? 13) ||
  (c =? 32) || (c =? 160) || (c =? 5760) ||
  ((8192 <=? c) && (c <=? 8202)) ||
  (c =? 8232) || (c =? 8233) || (c =? 8239) || (c =? 8287) ||
  (c =? 12288) || (c =? 65279).

Fixpoint trimStart (s : jsstring) : jsstring :=
  match s with
  | [] => []
  | c :: s' => if isWhiteSpace c then trimStart s' else s
  end.

Definition trimEnd (s : jsstring) : jsstring :=
  reverse (trimStart (reverse s)).

(** [s.trim()] *)
Definition trim (s : jsstring) : jsstring := trimEnd (trimStart s).

(** Truthiness of a string: only the empty string is falsy. *)
Definition truthy (s : jsstring) : bool :=
  match s with [] => false | _ :: _ => true end.

(** Truthiness of a value that is a string or [undefined]/[null]. *)
Definition truthy_opt (o : option jsstring) : bool :=
  match o with Some s => truthy s | None => false end.

(** [x || ''] for [x] a string or [undefined]. *)
Definition or_empty (o : option jsstring) : jsstring :=
  match o with
  | Some s => if truthy s then s else []
  | None => []
  end.

(** Abrupt completion.  The only exception the modelled expressions can
    raise is the [TypeError] of a property read on [undefined]. *)
Inductive exn := TypeError.

Inductive completion (A : Type) :=
| Normal (a : A)
| Throw (e : exn).
Arguments Normal {A} a.
Arguments Throw {A} e.

Definition bind {A B} (c : completion A) (k : A -> completion B)
  : completion B :=
  match c with
  | Normal a => k a
  | Throw e => Throw e
  end.

(** [x.trim()] where [x] may be [undefined]. *)
Definition call_trim (x : option jsstring) : completion jsstring :=
  match x with
  | Some s => Normal (trim s)
  | None => Throw TypeError
  end.

(** [xs.map(f)] for a callback that may throw. *)
Fixpoint map_throw {A B} (f : A -> completion B) (xs : list A)
  : completion (list B) :=
  match xs with
  | [] => Normal []
  | x :: xs' =>
      bind (f x) (fun y => bind (map_throw f xs') (fun ys => Normal (y :: ys)))
  end.

(** [xs.includes(x)] on an array of strings. *)
Definition array_includes (xs : list jsstring) (x : jsstring) : bool :=
  existsb (fun y => bool_decide (y = x)) xs.

(** [`${n}`] for a non-negative integer. *)
Definition of_nat (n : nat) : jsstring :=
  str (NilZero.string_of_uint (Nat.to_uint n)).

(** The part of a DOM [File] the components read.  [file_data] stands for
    the base64 payload [FileReader.readAsDataURL] delivers for the file. *)
Record File := {
  file_name : jsstring;
  file_size : N;
  file_type : jsstring;
  file_data : jsstring
}.

(** The [data:] URL [FileReader.readAsDataURL] produces. *)
Definition dataURL (f : File) : jsstring :=
  str "data:" ++ file_type f ++ str ";base64," ++ file_data f.

(** [xs.forEach((x, index) => f(x, index))] for a callback that updates a
    state, the indices counted from [index]. *)
Fixpoint forEach_from {A St : Type} (f : A -> nat -> St -> St) (index : nat)
  (xs : list A) (s : St) : St :=
  match xs with
  | [] => s
  | x :: xs' => forEach_from f (S index) xs' (f x index s)
  end.

Definition forEach {A St : Type} (f : A -> nat -> St -> St) (xs : list A)
  (s : St) : St := forEach_from f 0 xs s.

(** [xs.filter((_, i) => i !== index)] *)
Fixpoint filter_out_from {A : Type} (index i : nat) (xs : list A) : list A :=
  match xs with
  | [] => []
  | x :: xs' =>
      if Nat.eqb i index then filter_out_from index (S i) xs'
      else x :: filter_out_from index (S i) xs'
  end.

Definition filter_out {A : Type} (index : nat) (xs : list A) : list A :=
  filter_out_from index 0 xs.

(** A settled promise. *)
Inductive Settled (A : Type) :=
| Fulfilled (v : A)
| Rejected (message : jsstring).
Arguments Fulfilled {A} v.
Arguments Rejected {A} message.

(** No occurrence of [sep] begins inside [k] when [k] is followed by
    [sep]: an occurrence that begins in [k] ends before the last code unit
    of the [sep] that follows. *)
Definition first_at (k sep : jsstring) : bool :=
  negb (includes (k ++ removelast sep) sep).

(** [s.replace(/\s+/g, r)]: every maximal run of whitespace becomes one
    [r].  [in_run] tells that the previous code unit was whitespace. *)
Fixpoint replace_runs_from (in_run : bool) (r s : jsstring) : jsstring :=
  match s with
  | [] => []
  | c :: s' =>
      if isWhiteSpace c
      then if in_run then replace_runs_from true r s'
           else r ++ replace_runs_from true r s'
      else c :: replace_runs_from false r s'
  end.

Definition replace_whitespace_runs (s r : jsstring) : jsstring :=
  replace_runs_from false r s.

End JS.

Import JS.

(** ** VisualExtractor: the Visual DNA report *)

Module VisualExtractor.

(** The three literal delimiters of the report. *)
Definition ANALISA_DNA : jsstring := str "----- ANALISA DNA -----".
Definition FINAL_PROMPT : jsstring := str "----- FINAL PROMPT -----".
Definition TIPS_KONSISTENSI : jsstring := str "----- Tips Konsistensi -----".

Definition COLON : jsstring := str ":".
Definition LF : jsstring := [10].

(** [result.split('----- ANALISA DNA -----')[1]
       ?.split('----- FINAL PROMPT -----')[0] || ''] *)
Definition dna_body (result : jsstring) : jsstring :=
  or_empty
    (match split result ANALISA_DNA !! 1%nat with
     | None => None
     | Some rest => split rest FINAL_PROMPT !! 0%nat
     end).

(** [.split('\n').filter(line => line.includes(':'))] *)
Definition dna_lines (result : jsstring) : list jsstring :=
  List.filter (fun line => includes line COLON) (split (dna_body result) LF).

(** One card of the grid: the label [key.trim()] and the text
    [value?.trim()], which is [undefined] when [value] is. *)
Record Pair := { key : jsstring; value : option jsstring }.

(** [const [key, value] = line.split(':', 2)] followed by the two trims. *)
Definition dna_entry (line : jsstring) : completion Pair :=
  let parts := split_limit line COLON 2 in
  bind (call_trim (parts !! 0%nat)) (fun k =>
  Normal {| key := k; value := trim <$> parts !! 1%nat |}).

(** The key/value grid of the DNA section. *)
Definition dna_view (result : jsstring) : completion (list Pair) :=
  map_throw dna_entry (dna_lines result).

(** [result.split('----- FINAL PROMPT -----')[1]
       ?.split('----- Tips Konsistensi -----')[0].trim()]:
    the optional chain yields [undefined] when the first index does. *)
Definition final_prompt (result : jsstring) : completion (option jsstring) :=
  match split result FINAL_PROMPT !! 1%nat with
  | None => Normal None
  | Some rest =>
      bind (call_trim (split rest TIPS_KONSISTENSI !! 0%nat)) (fun t =>
      Normal (Some t))
  end.

(** The text handed to the copy button: [... || '']. *)
Definition final_prompt_text (result : jsstring) : completion jsstring :=
  bind (final_prompt result) (fun o => Normal (or_empty o)).

(** [result.split('----- Tips Konsistensi -----')[1]?.trim()] *)
Definition tips (result : jsstring) : option jsstring :=
  trim <$> split result TIPS_KONSISTENSI !! 1%nat.

Definition tips_text (result : jsstring) : jsstring := or_empty (tips result).

(** *** Upload validation and the analysis request *)

Definition MAX_FILE_SIZE : N := 5 * 1024 * 1024.

Definition ACCEPTED_TYPES : list jsstring :=
  [str "image/jpeg"; str "image/png"; str "image/webp"].

(** [file.size <= MAX_FILE_SIZE && [...].includes(file.type)] *)
Definition accepted (f : File) : bool :=
  (file_size f <=? MAX_FILE_SIZE) && array_includes ACCEPTED_TYPES (file_type f).

Inductive AnalysisMode := VISUAL_DNA | TEXT_EXTRACTION | OBJECT_DETECTION.
Inductive ModelType := FLASH | PRO.

(** What the error panel shows: a message, or one of the two key panels. *)
Inductive ErrorView :=
| ErrorText (m : jsstring)
| SelectKeyPanel
| AccessDeniedPanel.

(** A Gateway request of this tab: the image part built from the file,
    the model, and the prompt the mode selects. *)
Record Request := {
  req_model : ModelType;
  req_mode : AnalysisMode;
  req_file : File
}.

(** The component state, with the trace of issued requests.  The preview
    URL and the target model only select what is drawn and the wording of
    the prompt; they are left out. *)
Record State := {
  imageFile : option File;
  analysisMode : option AnalysisMode;
  modelType : ModelType;
  result : option jsstring;
  loading : bool;
  error : option ErrorView;
  gateway : list Request
}.

Definition init : State :=
  {| imageFile := None; analysisMode := None; modelType := FLASH;
     result := None; loading := false; error := None; gateway := [] |}.

Definition INVALID_FILE : jsstring :=
  str "Invalid file: Max 5MB, JPG, PNG, or WEBP only.".

Definition handleFileChange (file : option File) (s : State) : State :=
  match file with
  | Some f =>
      if accepted f
      then {| imageFile := Some f; analysisMode := analysisMode s;
              modelType := modelType s; result := None; loading := loading s;
              error := None; gateway := gateway s |}
      else {| imageFile := imageFile s; analysisMode := analysisMode s;
              modelType := modelType s; result := result s;
              loading := loading s; error := Some (ErrorText INVALID_FILE);
              gateway := gateway s |}
  | None =>
      {| imageFile := imageFile s; analysisMode := analysisMode s;
         modelType := modelType s; result := result s;
         loading := loading s; error := Some (ErrorText INVALID_FILE);
         gateway := gateway s |}
  end.

Definition handleRemoveImage (s : State) : State :=
  {| imageFile := None; analysisMode := None; modelType := modelType s;
     result := None; loading := loading s; error := None;
     gateway := gateway s |}.

Definition with_error (e : ErrorView) (s : State) : State :=
  {| imageFile := imageFile s; analysisMode := analysisMode s;
     modelType := modelType s; result := result s; loading := loading s;
     error := Some e; gateway := gateway s |}.

(** [handleAnalyze] up to the Gateway call.  The two awaits before it (the
    file read and, for the Pro model, [hasSelectedApiKey()]) work on the
    captured [imageFile]; the answer of the second is an argument. *)
Definition handleAnalyze (hasSelectedApiKey : bool) (s : State) : State :=
  match imageFile s with
  | None => with_error (ErrorText (str "Please upload an image first.")) s
  | Some f =>
      match analysisMode s with
      | None => with_error (ErrorText (str "Please select an analysis mode.")) s
      | Some m =>
          match modelType s, hasSelectedApiKey with
          | PRO, false =>
              {| imageFile := imageFile s; analysisMode := analysisMode s;
                 modelType := modelType s; result := None; loading := false;
                 error := Some SelectKeyPanel; gateway := gateway s |}
          | _, _ =>
              {| imageFile := imageFile s; analysisMode := analysisMode s;
                 modelType := modelType s; result := None; loading := true;
                 error := None;
                 gateway := gateway s ++
                   [{| req_model := modelType s; req_mode := m;
                       req_file := f |}] |}
          end
      end
  end.

(** The continuation of [handleAnalyze] after the Gateway call settles. *)
Definition handleAnalyze_resume (out : Settled (option jsstring)) (s : State)
  : State :=
  match out with
  | Fulfilled textResult =>
      {| imageFile := imageFile s; analysisMode := analysisMode s;
         modelType := modelType s; result := textResult; loading := false;
         error := error s; gateway := gateway s |}
  | Rejected message =>
      {| imageFile := imageFile s; analysisMode := analysisMode s;
         modelType := modelType s; result := result s; loading := false;
         error :=
           Some (if includes message (str "403")
                    || includes message (str "permission")
                    || includes message (str "Requested entity was not found")
                 then AccessDeniedPanel
                 else ErrorText (str "Neural Error: " ++
                        (if truthy message then message
                         else str "Unknown signal interference") ++ str "."));
         gateway := gateway s |}
  end.

Inductive Event :=
| FileChosen (file : option File)
| RemoveImage
| SetAnalysisMode (m : AnalysisMode)
| SetModelType (m : ModelType)
| Analyze (hasSelectedApiKey : bool)
| AnalyzeSettled (out : Settled (option jsstring)).

Definition step (s : State) (e : Event) : State :=
  match e with
  | FileChosen file => handleFileChange file s
  | RemoveImage => handleRemoveImage s
  | SetAnalysisMode m =>
      {| imageFile := imageFile s; analysisMode := Some m;
         modelType := modelType s; result := result s; loading := loading s;
         error := error s; gateway := gateway s |}
  | SetModelType m =>
      {| imageFile := imageFile s; analysisMode := analysisMode s;
         modelType := m; result := result s; loading := loading s;
         error := error s; gateway := gateway s |}
  | Analyze k => handleAnalyze k s
  | AnalyzeSettled out => handleAnalyze_resume out s
  end.

Definition run (es : list Event) : State := foldl step init es.

(** Only an accepted file is ever held, and only a held file is sent. *)
Definition extractor_inv (s : State) : Prop :=
  (forall f, imageFile s = Some f -> accepted f = true) /\
  Forall (fun r => accepted (req_file r) = true) (gateway s).

End VisualExtractor.

(** ** VisualFitLay: the per-item orchestrator *)

Module VisualFitLay.

Inductive LogType := info | success | error | system.

(** A log entry.  Its [id] ([Date.now() + Math.random()]) only keys and
    timestamps the rendered row and is left out. *)
Record LogEntry := { msg : jsstring; type : LogType }.

(** A detected item, identified by its position in the detection result. *)
Record Item := {
  name : jsstring;
  item_type : jsstring;
  color : jsstring;
  description : jsstring
}.

(** The shape of a Gateway response as far as the component reads it. *)
Record Blob := { mimeType : option jsstring; data : option jsstring }.
Record Part := { text : option jsstring; inlineData : option Blob }.
Record Content := { parts : option (list Part) }.
Record Candidate := { content : option Content }.
Record Response := { candidates : option (list Candidate) }.

(** What lines 613-646 of [processImage] deliver: the item list
    [data.items || []], or the [message] of whatever was thrown (a rejected
    call or a [JSON.parse] failure). *)
Inductive DetectOutcome :=
| DetectItems (items : list Item)
| DetectThrows (message : jsstring).

(** Gateway requests.  [DetectRequest] is the call with model
    [gemini-3-flash-preview]; [SynthRequest] is the call with model
    [gemini-2.5-flash-image] whose prompt names the item. *)
Inductive Request :=
| DetectRequest (mime : jsstring) (base64Data : option jsstring)
| SynthRequest (itemName : jsstring) (mime : jsstring)
    (base64Data : option jsstring).

(** A suspended continuation with the variables its closure captured. *)
Inductive Pending :=
| ReaderPending (file : File)
| DetectPending (mime : jsstring) (base64Data : option jsstring)
| SynthPending (item : Item) (index : nat).

Record AbortController := { aborted : bool }.

Record State := {
  sourceImage : option jsstring;
  sourceMime : jsstring;
  isAnalyzing : bool;
  logs : list LogEntry;
  extractedItems : list Item;
  itemVisuals : gmap nat jsstring;
  processingItems : gmap nat bool;
  failedItems : gmap nat bool;
  abortControllerRef : option AbortController;
  (* ghost state: what went out to the Gateway, and what is suspended *)
  gateway : list Request;
  inflight : list Pending
}.

Definition init : State :=
  {| sourceImage := None; sourceMime := str "image/png"; isAnalyzing := false;
     logs := []; extractedItems := []; itemVisuals := ∅;
     processingItems := ∅; failedItems := ∅; abortControllerRef := None;
     gateway := []; inflight := [] |}.

(** *** State setters *)

Definition setSourceImage (v : option jsstring) (s : State) : State :=
  {| sourceImage := v; sourceMime := sourceMime s;
     isAnalyzing := isAnalyzing s; logs := logs s;
     extractedItems := extractedItems s; itemVisuals := itemVisuals s;
     processingItems := processingItems s; failedItems := failedItems s;
     abortControllerRef := abortControllerRef s; gateway := gateway s;
     inflight := inflight s |}.

Definition setSourceMime (v : jsstring) (s : State) : State :=
  {| sourceImage := sourceImage s; sourceMime := v;
     isAnalyzing := isAnalyzing s; logs := logs s;
     extractedItems := extractedItems s; itemVisuals := itemVisuals s;
     processingItems := processingItems s; failedItems := failedItems s;
     abortControllerRef := abortControllerRef s; gateway := gateway s;
     inflight := inflight s |}.

Definition setIsAnalyzing (v : bool) (s : State) : State :=
  {| sourceImage := sourceImage s; sourceMime := sourceMime s;
     isAnalyzing := v; logs := logs s;
     extractedItems := extractedItems s; itemVisuals := itemVisuals s;
     processingItems := processingItems s; failedItems := failedItems s;
     abortControllerRef := abortControllerRef s; gateway := gateway s;
     inflight := inflight s |}.

Definition setLogs (f : list LogEntry -> list LogEntry) (s : State) : State :=
  {| sourceImage := sourceImage s; sourceMime := sourceMime s;
     isAnalyzing := isAnalyzing s; logs := f (logs s);
     extractedItems := extractedItems s; itemVisuals := itemVisuals s;
     processingItems := processingItems s; failedItems := failedItems s;
     abortControllerRef := abortControllerRef s; gateway := gateway s;
     inflight := inflight s |}.

Definition setExtractedItems (v : list Item) (s : State) : State :=
  {| sourceImage := sourceImage s; sourceMime := sourceMime s;
     isAnalyzing := isAnalyzing s; logs := logs s;
     extractedItems := v; itemVisuals := itemVisuals s;
     processingItems := processingItems s; failedItems := failedItems s;
     abortControllerRef := abortControllerRef s; gateway := gateway s;
     inflight := inflight s |}.

Definition setItemVisuals (f : gmap nat jsstring -> gmap nat jsstring)
  (s : State) : State :=
  {| sourceImage := sourceImage s; sourceMime := sourceMime s;
     isAnalyzing := isAnalyzing s; logs := logs s;
     extractedItems := extractedItems s; itemVisuals := f (itemVisuals s);
     processingItems := processingItems s; failedItems := failedItems s;
     abortControllerRef := abortControllerRef s; gateway := gateway s;
     inflight := inflight s |}.

Definition setProcessingItems (f : gmap nat bool -> gmap nat bool)
  (s : State) : State :=
  {| sourceImage := sourceImage s; sourceMime := sourceMime s;
     isAnalyzing := isAnalyzing s; logs := logs s;
     extractedItems := extractedItems s; itemVisuals := itemVisuals s;
     processingItems := f (processingItems s); failedItems := failedItems s;
     abortControllerRef := abortControllerRef s; gateway := gateway s;
     inflight := inflight s |}.

Definition setFailedItems (f : gmap nat bool -> gmap nat bool)
  (s : State) : State :=
  {| sourceImage := sourceImage s; sourceMime := sourceMime s;
     isAnalyzing := isAnalyzing s; logs := logs s;
     extractedItems := extractedItems s; itemVisuals := itemVisuals s;
     processingItems := processingItems s; failedItems := f (failedItems s);
     abortControllerRef := abortControllerRef s; gateway := gateway s;
     inflight := inflight s |}.

Definition setAbortController (v : option AbortController) (s : State)
  : State :=
  {| sourceImage := sourceImage s; sourceMime := sourceMime s;
     isAnalyzing := isAnalyzing s; logs := logs s;
     extractedItems := extractedItems s; itemVisuals := itemVisuals s;
     processingItems := processingItems s; failedItems := failedItems s;
     abortControllerRef := v; gateway := gateway s;
     inflight := inflight s |}.

(** Issue a Gateway request (or start a file read) and suspend on it. *)
Definition suspend (r : option Request) (p : Pending) (s : State) : State :=
  {| sourceImage := sourceImage s; sourceMime := sourceMime s;
     isAnalyzing := isAnalyzing s; logs := logs s;
     extractedItems := extractedItems s; itemVisuals := itemVisuals s;
     processingItems := processingItems s; failedItems := failedItems s;
     abortControllerRef := abortControllerRef s;
     gateway := gateway s ++ option_list r;
     inflight := inflight s ++ [p] |}.

(** The continuation at position [n] leaves the suspended set. *)
Definition wake (n : nat) (s : State) : State :=
  {| sourceImage := sourceImage s; sourceMime := sourceMime s;
     isAnalyzing := isAnalyzing s; logs := logs s;
     extractedItems := extractedItems s; itemVisuals := itemVisuals s;
     processingItems := processingItems s; failedItems := failedItems s;
     abortControllerRef := abortControllerRef s; gateway := gateway s;
     inflight := delete n (inflight s) |}.

(** [setLogs(prev => [...prev, { id, msg, type }])] *)
Definition addLog (m : jsstring) (t : LogType) (s : State) : State :=
  setLogs (fun prev => prev ++ [{| msg := m; type := t |}]) s.

(** *** Handlers *)

Definition INVALID_TYPE : jsstring :=
  str "Invalid file type. Please upload an image.".

(** [handleFile]: the read it starts completes in [reader_onload]. *)
Definition handleFile (file : option File) (s : State) : State :=
  match file with
  | Some f =>
      if startsWith (file_type f) (str "image/")
      then suspend None (ReaderPending f) (setSourceMime (file_type f) s)
      else addLog INVALID_TYPE error s
  | None => addLog INVALID_TYPE error s
  end.

Definition reader_onload (f : File) (s : State) : State :=
  addLog (str "Image loaded: " ++ file_name f) success
    (setSourceImage (Some (dataURL f)) s).

(** [reset].  [abortControllerRef.current] is assigned nowhere and no
    request is created with a signal, so nothing suspended is withdrawn. *)
Definition reset (s : State) : State :=
  let s0 :=
    match abortControllerRef s with
    | Some _ => setAbortController (Some {| aborted := true |}) s
    | None => s
    end in
  setLogs (fun _ => [{| msg := str "System reset. Ready for new input.";
                        type := system |}])
    (setIsAnalyzing false
      (setFailedItems (fun _ => ∅)
        (setProcessingItems (fun _ => ∅)
          (setItemVisuals (fun _ => ∅)
            (setExtractedItems []
              (setSourceImage None s0)))))).

(** [extractItemVisual] up to its [await]. *)
Definition extractItemVisual (item : Item) (index : nat)
  (base64Data : option jsstring) (mime : jsstring) (s : State) : State :=
  suspend (Some (SynthRequest (name item) mime base64Data))
    (SynthPending item index)
    (addLog (str "Synthesizing visual for: " ++ name item ++ str "...") info
      (setProcessingItems (fun prev => <[index := true]> prev) s)).

(** [response.candidates?.[0]?.content?.parts?.find(p => p.inlineData)] *)
Definition imagePart (response : Response) : option Part :=
  cs ← candidates response;
  c ← cs !! 0%nat;
  ct ← content c;
  ps ← parts ct;
  List.find (fun p => bool_decide (is_Some (inlineData p))) ps.

(** [imagePart?.inlineData?.data] *)
Definition imageData (response : Response) : option jsstring :=
  p ← imagePart response;
  b ← inlineData p;
  data b.

Definition imageUrl (d : jsstring) : jsstring :=
  str "data:image/png;base64," ++ d.

(** The [catch] block of [extractItemVisual]. *)
Definition extract_failed (item : Item) (index : nat) (s : State) : State :=
  addLog (str "Failed to extract " ++ name item) error
    (setFailedItems (fun prev => <[index := true]> prev) s).

(** [extractItemVisual] from its [await] on: [try] body, [catch],
    [finally]. *)
Definition extractItemVisual_resume (item : Item) (index : nat)
  (out : Settled Response) (s : State) : State :=
  let s1 :=
    match out with
    | Fulfilled response =>
        match imageData response with
        | Some d =>
            if truthy d
            then addLog (str "Visual ready: " ++ name item) success
                   (setItemVisuals (fun prev => <[index := imageUrl d]> prev) s)
            else extract_failed item index s
        | None => extract_failed item index s
        end
    | Rejected _ => extract_failed item index s
    end in
  setProcessingItems (fun prev => <[index := false]> prev) s1.

(** [processImage] up to its [await]. *)
Definition processImage (s : State) : State :=
  match sourceImage s with
  | Some img =>
      if truthy img then
        let base64Data := split img (str ",") !! 1%nat in
        suspend (Some (DetectRequest (sourceMime s) base64Data))
          (DetectPending (sourceMime s) base64Data)
          (addLog (str "Initiating neural analysis...") system
            (setFailedItems (fun _ => ∅)
              (setProcessingItems (fun _ => ∅)
                (setItemVisuals (fun _ => ∅)
                  (setExtractedItems []
                    (setIsAnalyzing true s))))))
      else s
  | None => s
  end.

(** [processImage] from its [await] on.  The loop calls
    [extractItemVisual] without awaiting the promise it returns: each call
    runs to its own [await] and suspends there. *)
Definition processImage_resume (mime : jsstring)
  (base64Data : option jsstring) (out : DetectOutcome) (s : State) : State :=
  match out with
  | DetectItems items =>
      forEach (fun item index => extractItemVisual item index base64Data mime)
        items
        (addLog (str "Detected " ++ of_nat (length items) ++
                 str " fashion elements. Starting visual synthesis...") success
          (setIsAnalyzing false
            (setExtractedItems items s)))
  | DetectThrows message =>
      setIsAnalyzing false
        (addLog (str "Analysis failed: " ++ message) error s)
  end.

(** *** The card of an item

    The conditional chain of the grid (processing, then failed, then
    visual) read as the state of the item. *)
Inductive ItemVisualState :=
| Idle
| Processing
| Succeeded (imageBytes : jsstring)
| Failed.

Definition flag (o : option bool) : bool := default false o.

Definition item_state (s : State) (idx : nat) : ItemVisualState :=
  if flag (processingItems s !! idx) then Processing
  else if flag (failedItems s !! idx) then Failed
  else match itemVisuals s !! idx with
       | Some url => if truthy url then Succeeded url else Idle
       | None => Idle
       end.

(** The image a settled synthesis call delivers, if it delivers one: the
    condition under which [extractItemVisual] takes its success branch. *)
Definition delivered_image (out : Settled Response) : option jsstring :=
  match out with
  | Fulfilled response =>
      match imageData response with
      | Some d => if truthy d then Some d else None
      | None => None
      end
  | Rejected _ => None
  end.

(** The entries the log draws as errors. *)
Definition is_error (e : LogEntry) : bool :=
  match type e with
  | error => true
  | _ => false
  end.

(** The per-item state table: the three index-keyed maps. *)
Definition tables (s : State)
  : gmap nat jsstring * gmap nat bool * gmap nat bool :=
  (itemVisuals s, processingItems s, failedItems s).

(** The two segments of [extractItemVisual] as events of one item. *)
Inductive ItemEvent :=
| Started (item : Item) (index : nat) (base64Data : option jsstring)
    (mime : jsstring)
| Settles (item : Item) (index : nat) (out : Settled Response).

Definition event_index (e : ItemEvent) : nat :=
  match e with
  | Started _ index _ _ => index
  | Settles _ index _ => index
  end.

Definition item_step (s : State) (e : ItemEvent) : State :=
  match e with
  | Started item index base64Data mime =>
      extractItemVisual item index base64Data mime s
  | Settles item index out => extractItemVisual_resume item index out s
  end.

(** *** The event loop

    User events are enabled as the markup renders their controls: the drop
    zone only without a source image, the reset and extract buttons only
    with one, the extract button not while analyzing.  A delivery resumes
    the suspended continuation at a position of [inflight]. *)
Inductive Reply :=
| FileLoaded
| Detected (out : DetectOutcome)
| Synthesized (out : Settled Response).

Inductive Event :=
| ChooseFile (file : option File)
| ClickReset
| ClickExtract
| Deliver (n : nat) (r : Reply).

Definition step (s : State) (e : Event) : State :=
  match e with
  | ChooseFile file =>
      if truthy_opt (sourceImage s) then s else handleFile file s
  | ClickReset =>
      if truthy_opt (sourceImage s) then reset s else s
  | ClickExtract =>
      if truthy_opt (sourceImage s) && negb (isAnalyzing s)
      then processImage s else s
  | Deliver n r =>
      match inflight s !! n, r with
      | Some (ReaderPending f), FileLoaded => reader_onload f (wake n s)
      | Some (DetectPending mime b), Detected out =>
          processImage_resume mime b out (wake n s)
      | Some (SynthPending item index), Synthesized out =>
          extractItemVisual_resume item index out (wake n s)
      | _, _ => s
      end
  end.

Definition run (es : list Event) : State := foldl step init es.

(** An image MIME type, as [handleFile] tests it. *)
Definition image_type (m : jsstring) : Prop :=
  startsWith m (str "image/") = true.

Definition pending_ok (p : Pending) : Prop :=
  match p with
  | ReaderPending f => image_type (file_type f)
  | DetectPending mime _ => image_type mime
  | SynthPending _ _ => True
  end.

Definition request_ok (r : Request) : Prop :=
  match r with
  | DetectRequest mime _ => image_type mime
  | SynthRequest _ mime _ => image_type mime
  end.

(** Every MIME type held, captured or sent is an image type. *)
Definition fitlay_inv (s : State) : Prop :=
  image_type (sourceMime s) /\
  Forall pending_ok (inflight s) /\
  Forall request_ok (gateway s).

(** The file name [downloadAsJpg] gives the link:
    [`${filename.replace(/\s+/g, '_')}.jpg`]. *)
Definition download_name (filename : jsstring) : jsstring :=
  replace_whitespace_runs filename (str "_") ++ str ".jpg".

(** A spinner has a call behind it: while [isAnalyzing] holds a detection
    call is suspended, and while an index is flagged as processing a
    synthesis call for that index is. *)
Definition busy_inv (s : State) : Prop :=
  (isAnalyzing s = true ->
   exists mime base64Data, DetectPending mime base64Data ∈ inflight s) /\
  (forall i, processingItems s !! i = Some true ->
   exists item, SynthPending item i ∈ inflight s).

(** A synthesis request has its detection request in [g]. *)
Definition detection_behind (g : list Request) (r : Request) : Prop :=
  match r with
  | SynthRequest _ mime base64Data => DetectRequest mime base64Data ∈ g
  | DetectRequest _ _ => True
  end.

(** The answers of a batch of synthesis calls, as events. *)
Definition settle_all (answers : list (Item * nat * Settled Response))
  : list ItemEvent :=
  (fun a => Settles a.1.1 a.1.2 a.2) <$> answers.

(** What the card of an item shows once its call has delivered [out]. *)
Definition settled_state (out : Settled Response) : ItemVisualState :=
  match delivered_image out with
  | Some d => Succeeded (imageUrl d)
  | None => Failed
  end.

(** Every synthesis request on the trace comes after a detection request
    for the same image, and every suspended detection has its request on
    the trace. *)
Definition detect_first (s : State) : Prop :=
  (forall i itemName mime base64Data,
     gateway s !! i = Some (SynthRequest itemName mime base64Data) ->
     exists j, (j < i)%nat /\
       gateway s !! j = Some (DetectRequest mime base64Data)) /\
  (forall mime base64Data,
     DetectPending mime base64Data ∈ inflight s ->
     DetectRequest mime base64Data ∈ gateway s).

End VisualFitLay.

(** ** VisualSuite: prompt, reference images and the generate request *)

Module VisualSuite.

Definition MAX_FILE_SIZE : N := 5 * 1024 * 1024.

Definition ACCEPTED_TYPES : list jsstring :=
  [str "image/jpeg"; str "image/png"; str "image/webp"].

Definition accepted (f : File) : bool :=
  (file_size f <=? MAX_FILE_SIZE) && array_includes ACCEPTED_TYPES (file_type f).

Inductive ErrorView :=
| ErrorText (m : jsstring)
| SelectKeyPanel.

(** The generate request: one inline part per reference image, then the
    text part. *)
Record Request := {
  req_images : list File;
  req_text : jsstring
}.

(** What the [try] block of [handleGenerateImage] meets after the call:
    the file built from the first inline image part, no such part, or
    something thrown (a rejected call, a response without candidates). *)
Inductive GenerateOutcome :=
| ImageReturned (file : File)
| NoImagePart
| Thrown (message : jsstring).

(** The component state.  [objectURLs] counts the calls of
    [URL.createObjectURL], each of which returns a fresh URL; [gateway] is
    the trace of issued requests.  The aspect ratio only configures the
    request and is left out. *)
Record State := {
  prompt : jsstring;
  negativePrompt : jsstring;
  referenceImages : list File;
  referenceImageUrls : list jsstring;
  generatedImageUrl : option jsstring;
  imageToEdit : option File;
  loading : bool;
  error : option ErrorView;
  objectURLs : nat;
  gateway : list Request
}.

Definition init : State :=
  {| prompt := str "bersihkan gambar"; negativePrompt := [];
     referenceImages := []; referenceImageUrls := [];
     generatedImageUrl := None; imageToEdit := None; loading := false;
     error := None; objectURLs := 0; gateway := [] |}.

(** The [n] URLs [URL.createObjectURL] hands out from call number [k]. *)
Definition createObjectURLs (k n : nat) : list jsstring :=
  (fun i => str "blob:" ++ of_nat i) <$> seq k n.

Definition with_error (e : option ErrorView) (s : State) : State :=
  {| prompt := prompt s; negativePrompt := negativePrompt s;
     referenceImages := referenceImages s;
     referenceImageUrls := referenceImageUrls s;
     generatedImageUrl := generatedImageUrl s; imageToEdit := imageToEdit s;
     loading := loading s; error := e; objectURLs := objectURLs s;
     gateway := gateway s |}.

Definition TOO_MANY : jsstring :=
  str "You can upload a maximum of 2 reference images.".

Definition handleFileChange (files : option (list File)) (s : State) : State :=
  match files with
  | None => s
  | Some fs =>
      let newFiles := List.filter accepted fs in
      if (2 <? length newFiles + length (referenceImages s))%nat
      then with_error (Some (ErrorText TOO_MANY)) s
      else
        {| prompt := prompt s; negativePrompt := negativePrompt s;
           referenceImages := referenceImages s ++ newFiles;
           referenceImageUrls :=
             referenceImageUrls s ++
             createObjectURLs (objectURLs s) (length newFiles);
           generatedImageUrl := generatedImageUrl s;
           imageToEdit := imageToEdit s; loading := loading s;
           error := None;
           objectURLs := (objectURLs s + length newFiles)%nat;
           gateway := gateway s |}
  end.

Definition handleRemoveReferenceImage (index : nat) (s : State) : State :=
  {| prompt := prompt s; negativePrompt := negativePrompt s;
     referenceImages := filter_out index (referenceImages s);
     referenceImageUrls := filter_out index (referenceImageUrls s);
     generatedImageUrl := generatedImageUrl s; imageToEdit := imageToEdit s;
     loading := loading s; error := error s; objectURLs := objectURLs s;
     gateway := gateway s |}.

Definition NOTHING_TO_GENERATE : jsstring :=
  str "Please provide a prompt or at least one reference image.".

(** [handleGenerateImage] up to the Gateway call.  The file reads awaited
    before it work on the captured [referenceImages].  The model is the
    constant [gemini-2.5-flash-image], so the key check guarded by the
    comparison with the paid model never runs. *)
Definition handleGenerateImage (s : State) : State :=
  if negb (truthy (prompt s)) && Nat.eqb (length (referenceImages s)) 0
  then with_error (Some (ErrorText NOTHING_TO_GENERATE)) s
  else
    let fullPrompt :=
      if truthy (negativePrompt s)
      then prompt s ++ str " --exclude " ++ negativePrompt s
      else prompt s in
    {| prompt := prompt s; negativePrompt := negativePrompt s;
       referenceImages := referenceImages s;
       referenceImageUrls := referenceImageUrls s;
       generatedImageUrl := None; imageToEdit := imageToEdit s;
       loading := true; error := None; objectURLs := objectURLs s;
       gateway := gateway s ++
         [{| req_images := referenceImages s; req_text := fullPrompt |}] |}.

(** [handleGenerateImage] from the Gateway call on. *)
Definition handleGenerateImage_resume (out : GenerateOutcome) (s : State)
  : State :=
  match out with
  | ImageReturned file =>
      {| prompt := prompt s; negativePrompt := negativePrompt s;
         referenceImages := referenceImages s;
         referenceImageUrls := referenceImageUrls s;
         generatedImageUrl := Some (dataURL file);
         imageToEdit := Some file;
         loading := false; error := error s; objectURLs := objectURLs s;
         gateway := gateway s |}
  | NoImagePart =>
      {| prompt := prompt s; negativePrompt := negativePrompt s;
         referenceImages := referenceImages s;
         referenceImageUrls := referenceImageUrls s;
         generatedImageUrl := generatedImageUrl s;
         imageToEdit := imageToEdit s;
         loading := false; error := error s; objectURLs := objectURLs s;
         gateway := gateway s |}
  | Thrown message =>
      {| prompt := prompt s; negativePrompt := negativePrompt s;
         referenceImages := referenceImages s;
         referenceImageUrls := referenceImageUrls s;
         generatedImageUrl := generatedImageUrl s;
         imageToEdit := imageToEdit s;
         loading := false;
         error :=
           Some (if includes message (str "403")
                    || includes message (str "permission")
                    || includes message (str "Requested entity was not found")
                 then SelectKeyPanel
                 else ErrorText (str "Failed to generate image: " ++
                        (if truthy message then message
                         else str "Unknown error") ++
                        str ". Please check your API key and try again."));
         objectURLs := objectURLs s; gateway := gateway s |}
  end.

Definition handleEditImage (s : State) : State :=
  match imageToEdit s with
  | Some file =>
      {| prompt := []; negativePrompt := [];
         referenceImages := [file];
         referenceImageUrls := createObjectURLs (objectURLs s) 1;
         generatedImageUrl := None; imageToEdit := None;
         loading := loading s; error := None;
         objectURLs := S (objectURLs s); gateway := gateway s |}
  | None => s
  end.

Inductive Event :=
| FilesChosen (files : option (list File))
| RemoveReference (index : nat)
| SetPrompt (p : jsstring)
| SetNegativePrompt (p : jsstring)
| Generate
| GenerateSettled (out : GenerateOutcome)
| EditImage.

Definition step (s : State) (e : Event) : State :=
  match e with
  | FilesChosen files => handleFileChange files s
  | RemoveReference index => handleRemoveReferenceImage index s
  | SetPrompt p =>
      {| prompt := p; negativePrompt := negativePrompt s;
         referenceImages := referenceImages s;
         referenceImageUrls := referenceImageUrls s;
         generatedImageUrl := generatedImageUrl s;
         imageToEdit := imageToEdit s; loading := loading s;
         error := error s; objectURLs := objectURLs s;
         gateway := gateway s |}
  | SetNegativePrompt p =>
      {| prompt := prompt s; negativePrompt := p;
         referenceImages := referenceImages s;
         referenceImageUrls := referenceImageUrls s;
         generatedImageUrl := generatedImageUrl s;
         imageToEdit := imageToEdit s; loading := loading s;
         error := error s; objectURLs := objectURLs s;
         gateway := gateway s |}
  | Generate => handleGenerateImage s
  | GenerateSettled out => handleGenerateImage_resume out s
  | EditImage => handleEditImage s
  end.

Definition run (es : list Event) : State := foldl step init es.

(** At most two reference images, each with its preview URL. *)
Definition suite_inv (s : State) : Prop :=
  (length (referenceImages s) <= 2)%nat /\
  length (referenceImages s) = length (referenceImageUrls s).

(** A generate request carries a reference image or a non-empty text. *)
Definition has_input (r : Request) : Prop :=
  req_images r <> [] \/ truthy (req_text r) = true.

(** The files the Gateway returned over a sequence of events. *)
Definition returned (es : list Event) : list File :=
  omap (fun e => match e with
                 | GenerateSettled (ImageReturned file) => Some file
                 | _ => None
                 end) es.

(** A reference image has an origin: it passed the upload validation or the
    Gateway returned it. *)
Definition vetted (es : list Event) (f : File) : Prop :=
  accepted f = true \/ f ∈ returned es.

End VisualSuite.

(** ** Scenarios *)

Module Scenarios.

Import VisualExtractor.

(** The example report of the specification. *)
Definition spec_example : jsstring :=
  ANALISA_DNA ++ LF ++ str "SUBJECT: a person" ++ LF ++
  FINAL_PROMPT ++ LF ++ str "final text" ++ LF ++
  TIPS_KONSISTENSI ++ LF ++ str "tip one".

(** A report whose DNA line has a colon inside its value. *)
Definition two_colon_line : jsstring := str "LIGHTING: golden hour: warm".

Definition two_colon_report : jsstring :=
  ANALISA_DNA ++ LF ++ two_colon_line ++ LF ++
  FINAL_PROMPT ++ LF ++ str "a prompt".

(** The pair as the specification words it: the line is cut at its first
    colon only, the value being the entire remainder. *)
Fixpoint before_first (c : N) (s : jsstring) : jsstring :=
  match s with
  | [] => []
  | x :: s' => if x =? c then [] else x :: before_first c s'
  end.

Fixpoint after_first (c : N) (s : jsstring) : jsstring :=
  match s with
  | [] => []
  | x :: s' => if x =? c then s' else after_first c s'
  end.

Definition first_colon_pair (line : jsstring) : Pair :=
  {| key := trim (before_first 58 line);
     value := Some (trim (after_first 58 line)) |}.

(** A model photo, two detected items and two Gateway answers. *)
Definition photo : File :=
  {| file_name := str "model.png"; file_size := 204800;
     file_type := str "image/png"; file_data := str "iVBORw0KGgo=" |}.

Definition shirt : VisualFitLay.Item :=
  {| VisualFitLay.name := str "shirt"; VisualFitLay.item_type := str "top";
     VisualFitLay.color := str "white";
     VisualFitLay.description := str "a white cotton shirt" |}.

Definition hat : VisualFitLay.Item :=
  {| VisualFitLay.name := str "hat"; VisualFitLay.item_type := str "accessory";
     VisualFitLay.color := str "black";
     VisualFitLay.description := str "a black felt hat" |}.

Definition image_response (d : jsstring) : VisualFitLay.Response :=
  {| VisualFitLay.candidates := Some
       [{| VisualFitLay.content := Some
             {| VisualFitLay.parts := Some
                  [{| VisualFitLay.text := Some (str "here it is");
                      VisualFitLay.inlineData := None |};
                   {| VisualFitLay.text := None;
                      VisualFitLay.inlineData := Some
                        {| VisualFitLay.mimeType := Some (str "image/png");
                           VisualFitLay.data := Some d |} |}] |} |}] |}.

Definition text_only_response : VisualFitLay.Response :=
  {| VisualFitLay.candidates := Some
       [{| VisualFitLay.content := Some
             {| VisualFitLay.parts := Some
                  [{| VisualFitLay.text := Some (str "cannot comply");
                      VisualFitLay.inlineData := None |}] |} |}] |}.

(** A photo is loaded, extraction is started and detects the shirt; its
    synthesis call is in flight. *)
Definition shirt_in_flight : list VisualFitLay.Event :=
  [VisualFitLay.ChooseFile (Some photo);
   VisualFitLay.Deliver 0 VisualFitLay.FileLoaded;
   VisualFitLay.ClickExtract;
   VisualFitLay.Deliver 0
     (VisualFitLay.Detected (VisualFitLay.DetectItems [shirt]))].

(** The user resets; then the answer for the shirt arrives. *)
Definition late_after_reset : list VisualFitLay.Event :=
  shirt_in_flight ++
  [VisualFitLay.ClickReset;
   VisualFitLay.Deliver 0
     (VisualFitLay.Synthesized (Fulfilled (image_response (str "AAAA"))))].

(** The user starts a second extraction instead; the call for the shirt
    fails late, then the second run detects the hat and synthesizes it. *)
Definition late_after_new_run : list VisualFitLay.Event :=
  shirt_in_flight ++
  [VisualFitLay.ClickExtract;
   VisualFitLay.Deliver 0 (VisualFitLay.Synthesized (Rejected (str "503")));
   VisualFitLay.Deliver 0
     (VisualFitLay.Detected (VisualFitLay.DetectItems [hat]));
   VisualFitLay.Deliver 0
     (VisualFitLay.Synthesized (Fulfilled (image_response (str "BBBB"))))].

(** Both items detected, both synthesis calls in flight. *)
Definition both_in_flight : VisualFitLay.State :=
  VisualFitLay.run
    [VisualFitLay.ChooseFile (Some photo);
     VisualFitLay.Deliver 0 VisualFitLay.FileLoaded;
     VisualFitLay.ClickExtract;
     VisualFitLay.Deliver 0
       (VisualFitLay.Detected (VisualFitLay.DetectItems [shirt; hat]))].

(** The photo loaded, nothing started yet. *)
Definition photo_loaded : VisualFitLay.State :=
  VisualFitLay.run
    [VisualFitLay.ChooseFile (Some photo);
     VisualFitLay.Deliver 0 VisualFitLay.FileLoaded].

(** Files the validation meets: a ten-megabyte PNG, a GIF, a PDF. *)
Definition big_photo : File :=
  {| file_name := str "big.png"; file_size := 10 * 1024 * 1024;
     file_type := str "image/png"; file_data := str "iVBORw0KGgoAAAAN" |}.

Definition gif : File :=
  {| file_name := str "anim.gif"; file_size := 1024;
     file_type := str "image/gif"; file_data := str "R0lGODlh" |}.

Definition pdf : File :=
  {| file_name := str "doc.pdf"; file_size := 1024;
     file_type := str "application/pdf"; file_data := str "JVBERi0x" |}.

Definition jpeg (n : nat) : File :=
  {| file_name := str "ref" ++ of_nat n ++ str ".jpg"; file_size := 4096;
     file_type := str "image/jpeg"; file_data := str "/9j/4AAQ" |}.

(** The big photo is dropped on the FitLay tab, loads, and extraction is
    started. *)
Definition big_photo_extracted : list VisualFitLay.Event :=
  [VisualFitLay.ChooseFile (Some big_photo);
   VisualFitLay.Deliver 0 VisualFitLay.FileLoaded;
   VisualFitLay.ClickExtract].

(** The Suite tab holding two reference images. *)
Definition two_references : VisualSuite.State :=
  VisualSuite.run [VisualSuite.FilesChosen (Some [jpeg 1; jpeg 2])].

(** The Suite tab with the prompt cleared and no reference image. *)
Definition nothing_to_generate : VisualSuite.State :=
  VisualSuite.run [VisualSuite.SetPrompt []].

(** The three bodies of the example report. *)
Definition example_dna : jsstring :=
  VisualExtractor.LF ++ str "SUBJECT: a person" ++ VisualExtractor.LF.

Definition example_final : jsstring :=
  VisualExtractor.LF ++ str "final text" ++ VisualExtractor.LF.

Definition example_tips : jsstring := VisualExtractor.LF ++ str "tip one".

(** The answers of the two calls in flight, the hat's first. *)
Definition hat_then_shirt
  : list (VisualFitLay.Item * nat * Settled VisualFitLay.Response) :=
  [(hat, 1%nat, Fulfilled (image_response (str "BBBB")));
   (shirt, 0%nat, Fulfilled text_only_response)].

End Scenarios.

(** * Properties *)

(** String literals stay folded while the handlers are unfolded. *)
Opaque str.

(** ** The string primitives *)

Section SplitFacts.

Context (sep : jsstring).

Lemma split_from_cons (c : N) (s : jsstring) :
  split_from sep 0 (c :: s) =
  if startsWith (c :: s) sep
  then [] :: split_from sep (pred (length sep)) s
  else match split_from sep 0 s with
       | piece :: rest => (c :: piece) :: rest
       | [] => [[c]]
       end.
Proof. reflexivity. Qed.

Lemma split_from_nonempty (k : nat) (s : jsstring) :
  split_from sep k s <> [].
Proof.
  revert k. induction s as [|c s IH]; intros k; [discriminate|].
  destruct k as [|k]; [|apply IH].
  rewrite split_from_cons.
  destruct (startsWith (c :: s) sep); [discriminate|].
  destruct (split_from sep 0 s); discriminate.
Qed.

Lemma split_head (s : jsstring) :
  exists piece rest, split s sep = piece :: rest.
Proof.
  unfold split. destruct (split_from sep 0 s) as [|p r] eqn:E.
  - exfalso. exact (split_from_nonempty 0 s E).
  - eauto.
Qed.

Lemma split_lookup_0 (s : jsstring) : is_Some (split s sep !! 0%nat).
Proof. destruct (split_head s) as (p & r & ->). simpl. eauto. Qed.

(** Without an occurrence of the separator the string is the only piece. *)
Lemma split_absent (s : jsstring) :
  includes s sep = false -> split s sep = [s].
Proof.
  unfold split. induction s as [|c s IH]; intros H; [reflexivity|].
  change (includes (c :: s) sep)
    with (startsWith (c :: s) sep || includes s sep) in H.
  apply orb_false_iff in H as [H1 H2].
  rewrite split_from_cons, H1, (IH H2). reflexivity.
Qed.

Lemma split_absent_lookup_1 (s : jsstring) :
  includes s sep = false -> split s sep !! 1%nat = None.
Proof. intros H. rewrite (split_absent s H). reflexivity. Qed.

End SplitFacts.

(** Splitting on a single code unit: the first piece is the text before
    the first occurrence, and the rest is the split of what follows. *)
Lemma split_unit_first (c : N) (k rest : jsstring) :
  includes k [c] = false ->
  split (k ++ c :: rest) [c] = k :: split rest [c].
Proof.
  unfold split. induction k as [|x k IH]; intros H.
  - simpl. rewrite N.eqb_refl. reflexivity.
  - change (includes (x :: k) [c])
      with (startsWith (x :: k) [c] || includes k [c]) in H.
    apply orb_false_iff in H as [H1 H2].
    simpl in H1. rewrite andb_true_r in H1.
    change ((x :: k) ++ c :: rest) with (x :: (k ++ c :: rest)).
    rewrite split_from_cons. simpl startsWith. rewrite andb_true_r, H1.
    rewrite (IH H2). reflexivity.
Qed.

Lemma map_throw_normal {A B} (f : A -> completion B) (xs : list A) :
  (forall x, In x xs -> exists y, f x = Normal y) ->
  exists ys, map_throw f xs = Normal ys.
Proof.
  induction xs as [|x xs IH]; simpl; intros H; [eauto|].
  destruct (H x (or_introl eq_refl)) as [y ->].
  destruct IH as [ys ->]; [intros; apply H; auto|].
  simpl. eauto.
Qed.

(** ** The Visual DNA report *)

Section Report.

Import VisualExtractor.

(** Every line yields a card: the destructured [key] is never
    [undefined], so [key.trim()] does not throw. *)
Lemma dna_entry_normal (line : jsstring) :
  exists pair, dna_entry line = Normal pair.
Proof.
  unfold dna_entry, split_limit.
  destruct (split_head COLON line) as (p & r & ->).
  simpl. eauto.
Qed.

Lemma dna_view_normal (result : jsstring) :
  exists pairs, dna_view result = Normal pairs.
Proof.
  apply map_throw_normal. intros line _. apply dna_entry_normal.
Qed.

Lemma final_prompt_normal (result : jsstring) :
  exists body, final_prompt result = Normal body.
Proof.
  unfold final_prompt.
  destruct (split result FINAL_PROMPT !! 1%nat) as [rest|]; [|eauto].
  destruct (split_lookup_0 TIPS_KONSISTENSI rest) as [t ->].
  simpl. eauto.
Qed.

(** Only lines with a colon reach the grid. *)
Lemma dna_lines_colon (result line : jsstring) :
  In line (dna_lines result) <->
  In line (split (dna_body result) LF) /\ includes line COLON = true.
Proof.
  unfold dna_lines.
  exact (filter_In (fun l => includes l COLON) line _).
Qed.

(** What a card shows for a line with a colon: the key is the text before
    the first colon, the value the first piece of what follows it. *)
Lemma dna_entry_first_colon (k rest : jsstring) :
  includes k COLON = false ->
  exists v more,
    split rest COLON = v :: more /\
    dna_entry (k ++ COLON ++ rest) =
      Normal {| key := trim k; value := Some (trim v) |}.
Proof.
  intros Hk. destruct (split_head COLON rest) as (v & more & Hv).
  exists v, more. split; [exact Hv|].
  unfold dna_entry, split_limit.
  change (k ++ COLON ++ rest) with (k ++ 58 :: rest).
  change COLON with [58] in *.
  rewrite (split_unit_first 58 k rest Hk), Hv. reflexivity.
Qed.

End Report.

(** C6. Section extraction is total: for every result text the key/value
    grid and the final-prompt text complete normally (no [TypeError]), the
    tips text being a plain value; and a section whose delimiter does not
    occur in the text has the empty string as its body. *)
Theorem section_extraction_total (result : jsstring) :
  (exists pairs, VisualExtractor.dna_view result = Normal pairs) /\
  (exists body, VisualExtractor.final_prompt_text result = Normal body) /\
  (includes result VisualExtractor.ANALISA_DNA = false ->
     VisualExtractor.dna_body result = [] /\
     VisualExtractor.dna_view result = Normal []) /\
  (includes result VisualExtractor.FINAL_PROMPT = false ->
     VisualExtractor.final_prompt_text result = Normal []) /\
  (includes result VisualExtractor.TIPS_KONSISTENSI = false ->
     VisualExtractor.tips_text result = []).
Proof.
  split; [apply dna_view_normal|].
  split.
  { unfold VisualExtractor.final_prompt_text.
    destruct (final_prompt_normal result) as [body ->]. simpl. eauto. }
  split.
  { intros H. unfold VisualExtractor.dna_view, VisualExtractor.dna_lines,
      VisualExtractor.dna_body.
    rewrite (split_absent_lookup_1 _ _ H). split; reflexivity. }
  split.
  { intros H. unfold VisualExtractor.final_prompt_text,
      VisualExtractor.final_prompt.
    rewrite (split_absent_lookup_1 _ _ H). reflexivity. }
  intros H. unfold VisualExtractor.tips_text, VisualExtractor.tips.
  rewrite (split_absent_lookup_1 _ _ H). reflexivity.
Qed.

Lemma section_extraction_total_witness :
  includes (str "no delimiter here") VisualExtractor.ANALISA_DNA = false /\
  includes (str "no delimiter here") VisualExtractor.FINAL_PROMPT = false /\
  includes (str "no delimiter here") VisualExtractor.TIPS_KONSISTENSI = false /\
  VisualExtractor.dna_body (str "no delimiter here") = [] /\
  VisualExtractor.final_prompt_text (str "no delimiter here") = Normal [] /\
  VisualExtractor.tips_text (str "no delimiter here") = [].
Proof.
  destruct (section_extraction_total (str "no delimiter here"))
    as (_ & _ & Hdna & Hfinal & Htips).
  split; [reflexivity|]. split; [reflexivity|]. split; [reflexivity|].
  split; [exact (proj1 (Hdna eq_refl))|].
  split; [exact (Hfinal eq_refl)|exact (Htips eq_refl)].
Defined.

(** When the text after the first colon holds no further colon, the card
    is the pair cut at the first colon. *)
Lemma dna_entry_single_colon (k rest : jsstring) :
  includes k VisualExtractor.COLON = false ->
  includes rest VisualExtractor.COLON = false ->
  VisualExtractor.dna_entry (k ++ VisualExtractor.COLON ++ rest) =
    Normal {| VisualExtractor.key := trim k;
              VisualExtractor.value := Some (trim rest) |}.
Proof.
  intros Hk Hrest.
  destruct (dna_entry_first_colon k rest Hk) as (v & more & Hv & ->).
  rewrite (split_absent _ _ Hrest) in Hv. by inversion Hv.
Qed.

(** C7. The example report of the specification: the DNA body contains
    the line [SUBJECT: a person], its grid is the single pair
    (SUBJECT, a person), the final-prompt body is [final text] and the tips
    body is [tip one]. *)
Theorem spec_example_sections :
  includes (VisualExtractor.dna_body Scenarios.spec_example)
    (str "SUBJECT: a person") = true /\
  VisualExtractor.dna_lines Scenarios.spec_example =
    [str "SUBJECT: a person"] /\
  VisualExtractor.dna_view Scenarios.spec_example =
    Normal [{| VisualExtractor.key := str "SUBJECT";
               VisualExtractor.value := Some (str "a person") |}] /\
  VisualExtractor.final_prompt Scenarios.spec_example =
    Normal (Some (str "final text")) /\
  VisualExtractor.final_prompt_text Scenarios.spec_example =
    Normal (str "final text") /\
  VisualExtractor.tips Scenarios.spec_example = Some (str "tip one") /\
  VisualExtractor.tips_text Scenarios.spec_example = str "tip one".
Proof. repeat split; vm_compute; reflexivity. Qed.

(** C2. On a DNA line with a second colon the card does not show the
    entire remainder after the first colon: [line.split(':', 2)] keeps the
    first two pieces of the split on every colon, so the value ends at the
    second colon.  The key is the text before the first colon, and lines
    without a colon are not in the grid. *)
Theorem dna_value_ends_at_second_colon :
  VisualExtractor.dna_view Scenarios.two_colon_report =
    Normal [{| VisualExtractor.key := str "LIGHTING";
               VisualExtractor.value := Some (str "golden hour") |}] /\
  Scenarios.first_colon_pair Scenarios.two_colon_line =
    {| VisualExtractor.key := str "LIGHTING";
       VisualExtractor.value := Some (str "golden hour: warm") |} /\
  VisualExtractor.dna_entry Scenarios.two_colon_line <>
    Normal (Scenarios.first_colon_pair Scenarios.two_colon_line).
Proof.
  split; [vm_compute; reflexivity|].
  split; [vm_compute; reflexivity|].
  vm_compute. discriminate.
Qed.

(** ** The orchestrator *)

Section Orchestrator.

Import VisualFitLay.

Lemma imageUrl_truthy (d : jsstring) : truthy (imageUrl d) = true.
Proof. reflexivity. Qed.

(** The continuation of [extractItemVisual] by the image it is handed. *)
Lemma resume_delivered (item : Item) (index : nat) (out : Settled Response)
  (d : jsstring) (s : State) :
  delivered_image out = Some d ->
  extractItemVisual_resume item index out s =
  setProcessingItems (fun prev => <[index := false]> prev)
    (addLog (str "Visual ready: " ++ name item) success
      (setItemVisuals (fun prev => <[index := imageUrl d]> prev) s)).
Proof.
  unfold delivered_image, extractItemVisual_resume.
  destruct out as [response|m]; [|discriminate].
  destruct (imageData response) as [d'|]; [|discriminate].
  destruct (truthy d'); [|discriminate].
  intros [= ->]. reflexivity.
Qed.

Lemma resume_failed (item : Item) (index : nat) (out : Settled Response)
  (s : State) :
  delivered_image out = None ->
  extractItemVisual_resume item index out s =
  setProcessingItems (fun prev => <[index := false]> prev)
    (extract_failed item index s).
Proof.
  unfold delivered_image, extractItemVisual_resume.
  destruct out as [response|m]; [|reflexivity].
  destruct (imageData response) as [d'|]; [|reflexivity].
  destruct (truthy d'); [discriminate|reflexivity].
Qed.

(** A segment of [extractItemVisual] writes the tables at its index only. *)
Lemma item_step_other (s : State) (e : ItemEvent) (k : nat) :
  event_index e <> k ->
  itemVisuals (item_step s e) !! k = itemVisuals s !! k /\
  processingItems (item_step s e) !! k = processingItems s !! k /\
  failedItems (item_step s e) !! k = failedItems s !! k.
Proof.
  intros Hk. destruct e as [item index b mime|item index out]; simpl in Hk.
  - simpl. rewrite lookup_insert_ne by done. done.
  - unfold item_step. destruct (delivered_image out) as [d|] eqn:E.
    + rewrite (resume_delivered _ _ _ _ _ E). simpl.
      rewrite !lookup_insert_ne by done. done.
    + rewrite (resume_failed _ _ _ _ E). simpl.
      rewrite !lookup_insert_ne by done. done.
Qed.

Lemma item_steps_other (es : list ItemEvent) (s : State) (k : nat) :
  Forall (fun e => event_index e <> k) es ->
  itemVisuals (foldl item_step s es) !! k = itemVisuals s !! k /\
  processingItems (foldl item_step s es) !! k = processingItems s !! k /\
  failedItems (foldl item_step s es) !! k = failedItems s !! k.
Proof.
  revert s. induction es as [|e es IH]; intros s H; [done|].
  inversion H as [|? ? He Hes]; subst. simpl.
  destruct (IH (item_step s e) Hes) as (-> & -> & ->).
  by apply item_step_other.
Qed.

Lemma item_state_ext (s s' : State) (k : nat) :
  itemVisuals s' !! k = itemVisuals s !! k ->
  processingItems s' !! k = processingItems s !! k ->
  failedItems s' !! k = failedItems s !! k ->
  item_state s' k = item_state s k.
Proof. unfold item_state. by intros -> -> ->. Qed.

End Orchestrator.

Section OrchestratorClaims.

Import VisualFitLay.

Lemma item_state_after_delivery (item : Item) (index : nat)
  (out : Settled Response) (d : jsstring) (s : State) :
  delivered_image out = Some d ->
  item_state (extractItemVisual_resume item index out s) index =
  if flag (failedItems s !! index) then Failed else Succeeded (imageUrl d).
Proof.
  intros E. rewrite (resume_delivered _ _ _ _ _ E).
  unfold item_state. simpl. rewrite !lookup_insert_eq. simpl.
  by destruct (flag (failedItems s !! index)).
Qed.

Lemma item_state_after_failure (item : Item) (index : nat)
  (out : Settled Response) (s : State) :
  delivered_image out = None ->
  item_state (extractItemVisual_resume item index out s) index = Failed.
Proof.
  intros E. rewrite (resume_failed _ _ _ _ E).
  unfold item_state. simpl. by rewrite !lookup_insert_eq.
Qed.

(** C3. Once the synthesis call of an item settles, whatever the state it
    settles in, its processing flag is false and its card is Succeeded or
    Failed, never Processing: a delivered image is stored at the index, a
    failure sets the failed flag.  For an item started on an index with no
    earlier entry, with segments of other items interleaved at will, the
    outcome is exclusive: image stored and no failed flag, or failed flag
    and no image. *)
Theorem synthesis_settles_terminal (item : Item) (index : nat)
  (out : Settled Response) :
  (forall s : State,
     let s' := extractItemVisual_resume item index out s in
     processingItems s' !! index = Some false /\
     item_state s' index <> Processing /\
     match delivered_image out with
     | Some d =>
         itemVisuals s' !! index = Some (imageUrl d) /\
         item_state s' index =
           if flag (failedItems s !! index) then Failed
           else Succeeded (imageUrl d)
     | None =>
         failedItems s' !! index = Some true /\
         item_state s' index = Failed
     end) /\
  (forall (s : State) (base64Data : option jsstring) (mime : jsstring)
          (siblings : list ItemEvent),
     itemVisuals s !! index = None ->
     failedItems s !! index = None ->
     Forall (fun e => event_index e <> index) siblings ->
     let s1 := extractItemVisual item index base64Data mime s in
     let s2 := foldl item_step s1 siblings in
     let s3 := extractItemVisual_resume item index out s2 in
     item_state s2 index = Processing /\
     processingItems s3 !! index = Some false /\
     match delivered_image out with
     | Some d =>
         itemVisuals s3 !! index = Some (imageUrl d) /\
         failedItems s3 !! index = None /\
         item_state s3 index = Succeeded (imageUrl d)
     | None =>
         failedItems s3 !! index = Some true /\
         itemVisuals s3 !! index = None /\
         item_state s3 index = Failed
     end).
Proof.
  split.
  - intros s s'. subst s'.
    destruct (delivered_image out) as [d|] eqn:E.
    + rewrite (item_state_after_delivery _ _ _ _ _ E).
      rewrite (resume_delivered _ _ _ _ _ E). simpl.
      rewrite !lookup_insert_eq.
      repeat split; by destruct (flag (failedItems s !! index)).
    + rewrite (item_state_after_failure _ _ _ _ E).
      rewrite (resume_failed _ _ _ _ E). simpl.
      rewrite !lookup_insert_eq. done.
  - intros s b mime siblings Hv Hf Hsib s1 s2 s3.
    destruct (item_steps_other siblings s1 index Hsib) as (Hv2 & Hp2 & Hf2).
    fold s2 in Hv2, Hp2, Hf2.
    assert (Hv1 : itemVisuals s1 !! index = None) by (subst s1; exact Hv).
    assert (Hf1 : failedItems s1 !! index = None) by (subst s1; exact Hf).
    assert (Hp1 : processingItems s1 !! index = Some true)
      by (subst s1; simpl; apply lookup_insert_eq).
    rewrite Hv1 in Hv2. rewrite Hp1 in Hp2. rewrite Hf1 in Hf2.
    split; [unfold item_state; by rewrite Hp2|].
    subst s3. destruct (delivered_image out) as [d|] eqn:E.
    + rewrite (item_state_after_delivery _ _ _ _ _ E).
      rewrite (resume_delivered _ _ _ _ _ E). simpl.
      rewrite !lookup_insert_eq, Hf2. done.
    + rewrite (item_state_after_failure _ _ _ _ E).
      rewrite (resume_failed _ _ _ _ E). simpl.
      rewrite !lookup_insert_eq, Hv2. done.
Qed.

(** C4. A failed synthesis of item [i] writes the failed flag and the
    processing flag of [i] and nothing else in the tables: every entry of a
    different item [j] is as before, and [j], unless it has failed itself,
    reaches Succeeded when its own call delivers an image, whichever of the
    two calls settles first. *)
Theorem synthesis_failure_isolated (s : State) (item_i item_j : Item)
  (i j : nat) (out_i out_j : Settled Response) (d : jsstring) :
  i <> j ->
  delivered_image out_i = None ->
  delivered_image out_j = Some d ->
  flag (failedItems s !! j) = false ->
  let s' := extractItemVisual_resume item_i i out_i s in
  itemVisuals s' = itemVisuals s /\
  failedItems s' = <[i := true]> (failedItems s) /\
  processingItems s' = <[i := false]> (processingItems s) /\
  extractedItems s' = extractedItems s /\
  itemVisuals s' !! j = itemVisuals s !! j /\
  failedItems s' !! j = failedItems s !! j /\
  processingItems s' !! j = processingItems s !! j /\
  item_state s' j = item_state s j /\
  item_state (extractItemVisual_resume item_j j out_j s') j =
    Succeeded (imageUrl d) /\
  item_state
    (extractItemVisual_resume item_i i out_i
       (extractItemVisual_resume item_j j out_j s)) j =
    Succeeded (imageUrl d).
Proof.
  intros Hij Ei Ej Hfj s'.
  destruct (item_step_other s (Settles item_i i out_i) j Hij)
    as (Hv & Hp & Hf).
  change (item_step s (Settles item_i i out_i)) with s' in Hv, Hp, Hf.
  assert (Hs' : s' = setProcessingItems (fun prev => <[i := false]> prev)
                       (extract_failed item_i i s))
    by (subst s'; by apply resume_failed).
  split; [by rewrite Hs'|]. split; [by rewrite Hs'|].
  split; [by rewrite Hs'|]. split; [by rewrite Hs'|].
  split; [done|]. split; [done|]. split; [done|].
  split; [by apply item_state_ext|].
  split.
  - rewrite (item_state_after_delivery _ _ _ _ _ Ej), Hf, Hfj. done.
  - set (t := extractItemVisual_resume item_j j out_j s).
    transitivity (item_state t j).
    + destruct (item_step_other t (Settles item_i i out_i) j Hij)
        as (Hv' & Hp' & Hf').
      by apply item_state_ext.
    + subst t. by rewrite (item_state_after_delivery _ _ _ _ _ Ej), Hfj.
Qed.

End OrchestratorClaims.

Section Runs.

Import VisualFitLay.

Lemma delete_last {A} (l : list A) (x : A) : delete (length l) (l ++ [x]) = l.
Proof. induction l as [|y l IH]; simpl; [done|]. by rewrite IH. Qed.

(** What the fan-out loop leaves behind, started at index [k]. *)
Lemma forEach_extract (mime : jsstring) (b : option jsstring)
  (items : list Item) (k : nat) (s : State) :
  let s' :=
    forEach_from (fun item index => extractItemVisual item index b mime)
      k items s in
  gateway s' =
    gateway s ++ ((fun item => SynthRequest (name item) mime b) <$> items) /\
  inflight s' =
    inflight s ++ imap (fun i item => SynthPending item (k + i)) items /\
  (forall j, processingItems s' !! j =
     if bool_decide (k <= j < k + length items)%nat then Some true
     else processingItems s !! j) /\
  itemVisuals s' = itemVisuals s /\
  failedItems s' = failedItems s /\
  extractedItems s' = extractedItems s /\
  isAnalyzing s' = isAnalyzing s /\
  sourceImage s' = sourceImage s /\
  sourceMime s' = sourceMime s.
Proof.
  revert k s. induction items as [|item items IH]; intros k s; simpl.
  - rewrite !app_nil_r. repeat split; try done.
    intros j. rewrite bool_decide_eq_false_2; [done|lia].
  - destruct (IH (S k) (extractItemVisual item k b mime s))
      as (Hg & Hi & Hp & Hv & Hf & He & Ha & Hs & Hm).
    rewrite Hg, Hi, Hv, Hf, He, Ha, Hs, Hm. simpl.
    rewrite <- !app_assoc. simpl. rewrite Nat.add_0_r.
    split; [done|]. split.
    { do 2 f_equal. apply imap_ext. intros i x _. simpl. f_equal. lia. }
    split; [|done].
    intros j. rewrite Hp. simpl.
    destruct (decide (j = k)) as [->|Hjk].
    + rewrite lookup_insert_eq.
      rewrite (bool_decide_eq_true_2 (k <= k < k + S (length items))%nat)
        by lia.
      by case_bool_decide.
    + rewrite lookup_insert_ne by done.
      repeat case_bool_decide; try done; lia.
Qed.

(** The two continuations of different items commute on the tables. *)
Lemma resume_commute (t : State) (item_i item_j : Item) (i j : nat)
  (out_i out_j : Settled Response) :
  i <> j ->
  tables (extractItemVisual_resume item_i i out_i
            (extractItemVisual_resume item_j j out_j t)) =
  tables (extractItemVisual_resume item_j j out_j
            (extractItemVisual_resume item_i i out_i t)).
Proof.
  intros Hij. unfold tables.
  destruct (delivered_image out_i) as [di|] eqn:Ei;
    destruct (delivered_image out_j) as [dj|] eqn:Ej;
    repeat first
      [ rewrite (resume_delivered _ _ _ _ _ Ei)
      | rewrite (resume_delivered _ _ _ _ _ Ej)
      | rewrite (resume_failed _ _ _ _ Ei)
      | rewrite (resume_failed _ _ _ _ Ej) ];
    simpl;
    rewrite ?(insert_insert_ne (processingItems t) i j),
            ?(insert_insert_ne (failedItems t) i j),
            ?(insert_insert_ne (itemVisuals t) i j) by done;
    reflexivity.
Qed.

End Runs.

Section RunClaims.

Import VisualFitLay.

(** C9. The continuation of a successful detection issues the synthesis
    calls of all detected items in one uninterrupted step, none waiting for
    an answer: afterwards every call is on the Gateway trace and suspended,
    and every index is flagged as processing.  Any suspended call may be
    answered next, the continuations of two items commute on the tables, and
    a continuation writes the tables at its own index only. *)
Theorem synthesis_fan_out (s : State) (items : list Item) (mime : jsstring)
  (base64Data : option jsstring) :
  let s' := processImage_resume mime base64Data (DetectItems items) s in
  extractedItems s' = items /\
  gateway s' =
    gateway s ++
    ((fun item => SynthRequest (name item) mime base64Data) <$> items) /\
  inflight s' =
    inflight s ++ imap (fun i item => SynthPending item i) items /\
  (forall i, (i < length items)%nat -> processingItems s' !! i = Some true) /\
  itemVisuals s' = itemVisuals s /\
  failedItems s' = failedItems s /\
  (forall n item i out,
     inflight s' !! n = Some (SynthPending item i) ->
     step s' (Deliver n (Synthesized out)) =
     extractItemVisual_resume item i out (wake n s')) /\
  (forall t item_i item_j i j out_i out_j,
     i <> j ->
     tables (extractItemVisual_resume item_i i out_i
               (extractItemVisual_resume item_j j out_j t)) =
     tables (extractItemVisual_resume item_j j out_j
               (extractItemVisual_resume item_i i out_i t))) /\
  (forall t item i out k,
     i <> k ->
     itemVisuals (extractItemVisual_resume item i out t) !! k
       = itemVisuals t !! k /\
     processingItems (extractItemVisual_resume item i out t) !! k
       = processingItems t !! k /\
     failedItems (extractItemVisual_resume item i out t) !! k
       = failedItems t !! k).
Proof.
  intros s'. subst s'. unfold processImage_resume, forEach.
  match goal with
  | |- context [forEach_from ?f 0%nat items ?s0] =>
      destruct (forEach_extract mime base64Data items 0 s0)
        as (Hg & Hi & Hp & Hv & Hf & He & _)
  end.
  split; [by rewrite He|]. split; [by rewrite Hg|].
  split; [by rewrite Hi|].
  split.
  { intros i Hi'. rewrite Hp. rewrite bool_decide_eq_true_2; [done|lia]. }
  split; [by rewrite Hv|]. split; [by rewrite Hf|].
  split.
  { intros n item i out Hn. unfold step. by rewrite Hn. }
  split.
  { intros. by apply resume_commute. }
  intros t item i out k Hik.
  exact (item_step_other t (Settles item i out) k Hik).
Qed.

(** C5. When the detection call throws, its continuation appends one
    entry to the log, of type error, and touches neither the extracted
    items, the tables, the Gateway trace nor the suspended set.  For the run
    as a whole, from the click on: the log gains the start entry and that
    one error entry, the extracted items are empty, and the detection
    request is the only request the run issues. *)
Theorem detection_failure_terminal (message : jsstring) :
  (forall (t : State) (mime : jsstring) (base64Data : option jsstring),
     let t' := processImage_resume mime base64Data (DetectThrows message) t in
     logs t' =
       logs t ++ [{| msg := str "Analysis failed: " ++ message;
                     type := error |}] /\
     extractedItems t' = extractedItems t /\
     tables t' = tables t /\
     gateway t' = gateway t /\
     inflight t' = inflight t /\
     isAnalyzing t' = false) /\
  (forall s : State,
     truthy_opt (sourceImage s) = true ->
     exists mime base64Data,
       let s1 := processImage s in
       let s2 :=
         processImage_resume mime base64Data (DetectThrows message)
           (wake (length (inflight s)) s1) in
       inflight s1 = inflight s ++ [DetectPending mime base64Data] /\
       gateway s2 = gateway s ++ [DetectRequest mime base64Data] /\
       logs s2 =
         logs s ++
         [{| msg := str "Initiating neural analysis..."; type := system |};
          {| msg := str "Analysis failed: " ++ message; type := error |}] /\
       length (List.filter is_error (logs s2)) =
         S (length (List.filter is_error (logs s))) /\
       extractedItems s2 = [] /\
       tables s2 = (∅, ∅, ∅) /\
       inflight s2 = inflight s /\
       isAnalyzing s2 = false).
Proof.
  split; [done|].
  intros s Hs. unfold processImage.
  destruct (sourceImage s) as [img|]; [|discriminate].
  simpl in Hs. rewrite Hs.
  eexists _, _. simpl.
  split; [reflexivity|]. split; [reflexivity|].
  split; [by rewrite <- app_assoc|].
  split.
  { rewrite <- app_assoc. rewrite List.filter_app. rewrite length_app.
    simpl. lia. }
  split; [done|]. split; [done|].
  split; [apply delete_last|done].
Qed.

(** C1. A late answer is honored.  After the reset the tables are empty
    and the call for the shirt is still suspended; when its answer arrives
    the image is stored and the processing flag written.  After a second
    extraction the late failure of the first run's call marks index 0 of
    the new run as failed, and the item of the new run, synthesized with
    success, shows as Failed. *)
Theorem late_response_mutates_tables :
  tables (run (Scenarios.shirt_in_flight ++ [ClickReset])) = (∅, ∅, ∅) /\
  inflight (run (Scenarios.shirt_in_flight ++ [ClickReset])) =
    [SynthPending Scenarios.shirt 0] /\
  tables (run Scenarios.late_after_reset) =
    ({[ 0%nat := imageUrl (str "AAAA") ]}, {[ 0%nat := false ]}, ∅) /\
  tables (run (Scenarios.shirt_in_flight ++ [ClickExtract])) = (∅, ∅, ∅) /\
  tables (run Scenarios.late_after_new_run) =
    ({[ 0%nat := imageUrl (str "BBBB") ]}, {[ 0%nat := false ]},
     {[ 0%nat := true ]}) /\
  extractedItems (run Scenarios.late_after_new_run) = [Scenarios.hat] /\
  item_state (run Scenarios.late_after_new_run) 0 = Failed.
Proof. repeat split; vm_compute; reflexivity. Qed.

End RunClaims.

(** ** Validation before the Gateway *)

Section ExtractorValidation.

Import VisualExtractor.

Lemma accepted_false (f : File) :
  MAX_FILE_SIZE < file_size f \/
  array_includes ACCEPTED_TYPES (file_type f) = false ->
  accepted f = false.
Proof.
  unfold accepted. intros [H|H].
  - apply N.leb_gt in H. by rewrite H.
  - rewrite H. apply andb_false_r.
Qed.

Lemma extractor_step_inv (s : State) (e : Event) :
  extractor_inv s -> extractor_inv (step s e).
Proof.
  intros [Hf Hg]. destruct e as [file| |m|m|k|out]; simpl.
  - destruct file as [f|]; simpl; [|by split].
    destruct (accepted f) eqn:E; split; simpl; try done.
    by intros ? [= <-].
  - by split.
  - by split.
  - by split.
  - unfold handleAnalyze.
    destruct (imageFile s) as [f|] eqn:Ef;
      [|split; simpl; [by rewrite Ef|done]].
    destruct (analysisMode s) as [m|]; [|split; simpl; [by rewrite Ef|done]].
    assert (Hsend : extractor_inv
      {| imageFile := Some f; analysisMode := Some m;
         modelType := modelType s; result := None; loading := true;
         error := None;
         gateway := gateway s ++
           [{| req_model := modelType s; req_mode := m; req_file := f |}] |}).
    { split; simpl; [by intros ? [= <-]; apply Hf|].
      apply Forall_app. split; [done|].
      constructor; [simpl; by apply Hf|constructor]. }
    destruct (modelType s), k; try exact Hsend.
    split; simpl; [by intros ? [= <-]; apply Hf|done].
  - destruct out; by split.
Qed.

Lemma extractor_run_inv (es : list Event) : extractor_inv (run es).
Proof.
  unfold run. induction es as [|e es IH] using rev_ind.
  - split; [discriminate|constructor].
  - rewrite foldl_app. simpl. by apply extractor_step_inv.
Qed.

End ExtractorValidation.

Section FitLayValidation.

Import VisualFitLay.

Lemma resume_frame (item : Item) (index : nat) (out : Settled Response)
  (s : State) :
  let s' := extractItemVisual_resume item index out s in
  sourceMime s' = sourceMime s /\
  inflight s' = inflight s /\
  gateway s' = gateway s.
Proof.
  cbv zeta. destruct (delivered_image out) as [d|] eqn:E.
  - by rewrite (resume_delivered _ _ _ _ _ E).
  - by rewrite (resume_failed _ _ _ _ E).
Qed.

Lemma Forall_delete {A} (P : A -> Prop) (n : nat) (l : list A) :
  Forall P l -> Forall P (delete n l).
Proof.
  intros H. revert n. induction H as [|x l Hx Hl IH]; intros [|n]; simpl;
    try done; by constructor.
Qed.

Lemma fitlay_step_inv (s : State) (e : Event) :
  fitlay_inv s -> fitlay_inv (step s e).
Proof.
  intros (Hm & Hi & Hg). destruct e as [file| | |n r]; simpl.
  - destruct (truthy_opt (sourceImage s)); [done|].
    destruct file as [f|]; simpl; [|done].
    destruct (startsWith (file_type f) (str "image/")) eqn:E; [|done].
    split; [exact E|]. simpl. split.
    + apply Forall_app. split; [done|]. by constructor.
    + by rewrite app_nil_r.
  - destruct (truthy_opt (sourceImage s)); [|done].
    unfold reset. by destruct (abortControllerRef s).
  - destruct (truthy_opt (sourceImage s) && negb (isAnalyzing s)); [|done].
    unfold processImage. destruct (sourceImage s) as [img|]; [|done].
    destruct (truthy img); [|done].
    split; [done|]. simpl. split.
    + apply Forall_app. split; [done|]. by constructor.
    + apply Forall_app. split; [done|]. by constructor.
  - destruct (inflight s !! n) as [p|] eqn:En; [|done].
    assert (Hp : pending_ok p).
    { eapply Forall_lookup_1; [exact Hi|exact En]. }
    assert (Hw : Forall pending_ok (delete n (inflight s)))
      by by apply Forall_delete.
    destruct p as [f|mime b|item index], r as [|out|out]; try done.
    + destruct out as [items|message]; [|done].
      unfold processImage_resume, forEach.
      match goal with
      | |- context [forEach_from ?f 0%nat items ?s0] =>
          destruct (forEach_extract mime b items 0 s0)
            as (Hg' & Hi' & _ & _ & _ & _ & _ & _ & Hm'); unfold fitlay_inv
      end.
      rewrite Hg', Hi', Hm'. simpl.
      split; [done|]. split.
      * apply Forall_app. split; [done|].
        apply Forall_forall. intros p Hp'.
        apply list_elem_of_lookup in Hp' as [i Hp'].
        rewrite list_lookup_imap in Hp'.
        destruct (items !! i); by inversion Hp'.
      * apply Forall_app. split; [done|].
        apply Forall_fmap. by apply Forall_true.
    + destruct (resume_frame item index out (wake n s)) as (E1 & E2 & E3).
      unfold fitlay_inv. by rewrite E1, E2, E3.
Qed.

Lemma fitlay_run_inv (es : list Event) : fitlay_inv (run es).
Proof.
  unfold run. induction es as [|e es IH] using rev_ind.
  - repeat split; constructor.
  - rewrite foldl_app. simpl. by apply fitlay_step_inv.
Qed.

End FitLayValidation.

(** ** VisualSuite *)

Section Suite.

Import VisualSuite.

Lemma filter_out_from_length {A B} (index i : nat) (xs : list A)
  (ys : list B) :
  length xs = length ys ->
  length (filter_out_from index i xs) = length (filter_out_from index i ys).
Proof.
  revert i ys. induction xs as [|x xs IH]; intros i [|y ys] H;
    simpl in *; try done.
  injection H as H. destruct (Nat.eqb i index); simpl; auto.
Qed.

Lemma filter_out_from_le {A} (index i : nat) (xs : list A) :
  (length (filter_out_from index i xs) <= length xs)%nat.
Proof.
  revert i. induction xs as [|x xs IH]; intros i; simpl; [done|].
  destruct (Nat.eqb i index); simpl; specialize (IH (S i)); lia.
Qed.

Lemma createObjectURLs_length (k n : nat) : length (createObjectURLs k n) = n.
Proof. unfold createObjectURLs. by rewrite length_fmap, length_seq. Qed.

Lemma suite_step_inv (s : State) (e : Event) :
  suite_inv s -> suite_inv (step s e).
Proof.
  intros [Hle Heq].
  destruct e as [files|index|p|p| |out|]; simpl; try done.
  - destruct files as [fs|]; simpl; [|done].
    destruct (2 <? _)%nat eqn:E; [done|].
    apply Nat.ltb_ge in E. split; simpl.
    + rewrite length_app. lia.
    + rewrite !length_app, createObjectURLs_length. lia.
  - split; simpl.
    + unfold filter_out.
      pose proof (filter_out_from_le index 0 (referenceImages s)). lia.
    + by apply filter_out_from_length.
  - unfold handleGenerateImage. by destruct (_ && _).
  - by destruct out.
  - unfold handleEditImage. destruct (imageToEdit s); [|done].
    split; simpl; lia.
Qed.

Lemma suite_run_inv (es : list Event) : suite_inv (run es).
Proof.
  unfold run. induction es as [|e es IH] using rev_ind.
  - split; simpl; lia.
  - rewrite foldl_app. simpl. by apply suite_step_inv.
Qed.

Lemma suite_step_requests (s : State) (e : Event) :
  Forall has_input (gateway s) -> Forall has_input (gateway (step s e)).
Proof.
  intros H. destruct e as [files|index|p|p| |out|]; simpl; try done.
  - destruct files as [fs|]; simpl; [|done]. by destruct (2 <? _)%nat.
  - unfold handleGenerateImage.
    destruct (negb (truthy (prompt s)) && _) eqn:E; [done|]. simpl.
    apply Forall_app. split; [done|]. constructor; [|constructor].
    unfold has_input. simpl.
    apply andb_false_iff in E as [E|E].
    + right. apply negb_false_iff in E.
      destruct (prompt s) as [|c p]; [discriminate|].
      by destruct (truthy (negativePrompt s)).
    + left. destruct (referenceImages s); [discriminate|done].
  - by destruct out.
  - unfold handleEditImage. by destruct (imageToEdit s).
Qed.

Lemma suite_run_requests (es : list Event) :
  Forall has_input (gateway (run es)).
Proof.
  unfold run. induction es as [|e es IH] using rev_ind.
  - constructor.
  - rewrite foldl_app. simpl. by apply suite_step_requests.
Qed.

(** C10. The reference images never exceed two and always match their
    preview URLs in number: this holds initially and every operation of the
    component keeps it.  An upload whose accepted files would bring the
    total above two sets the inline error and leaves both lists as they
    were. *)
Theorem reference_images_bounded :
  (forall es : list Event, suite_inv (run es)) /\
  (forall (s : State) (e : Event), suite_inv s -> suite_inv (step s e)) /\
  (forall (s : State) (files : list File),
     (2 < length (List.filter accepted files) + length (referenceImages s))%nat ->
     let s' := handleFileChange (Some files) s in
     error s' = Some (ErrorText TOO_MANY) /\
     referenceImages s' = referenceImages s /\
     referenceImageUrls s' = referenceImageUrls s /\
     s' = with_error (Some (ErrorText TOO_MANY)) s).
Proof.
  split; [exact suite_run_inv|]. split; [exact suite_step_inv|].
  intros s files H. apply Nat.ltb_lt in H.
  unfold handleFileChange. cbv zeta. rewrite H. done.
Qed.

End Suite.

(** ** Validation: the claim and its instances *)

(** C8 (as amended). A file the tab does not accept is rejected with a
    report and nothing else changes: in VisualExtractor a file over 5 MB or
    not JPEG, PNG or WEBP sets the inline error; in FitLay a file whose type
    does not start with [image/] appends an error entry to the log; in
    VisualSuite a generate request with an empty prompt and no reference
    image sets the inline error.  No request results, and over every run no
    VisualExtractor request carries an unaccepted file, no FitLay request a
    type outside [image/], no VisualSuite request neither image nor text.
    FitLay applies no size limit. *)
Theorem invalid_input_rejected :
  (forall (s : VisualExtractor.State) (f : File),
     VisualExtractor.MAX_FILE_SIZE < file_size f \/
     array_includes VisualExtractor.ACCEPTED_TYPES (file_type f) = false ->
     VisualExtractor.handleFileChange (Some f) s =
     VisualExtractor.with_error
       (VisualExtractor.ErrorText VisualExtractor.INVALID_FILE) s) /\
  (forall es : list VisualExtractor.Event,
     Forall (fun r => VisualExtractor.accepted (VisualExtractor.req_file r)
                      = true)
       (VisualExtractor.gateway (VisualExtractor.run es))) /\
  (forall (s : VisualFitLay.State) (f : File),
     startsWith (file_type f) (str "image/") = false ->
     VisualFitLay.handleFile (Some f) s =
     VisualFitLay.addLog VisualFitLay.INVALID_TYPE VisualFitLay.error s) /\
  (forall es : list VisualFitLay.Event,
     Forall VisualFitLay.request_ok
       (VisualFitLay.gateway (VisualFitLay.run es))) /\
  (forall s : VisualSuite.State,
     VisualSuite.prompt s = [] ->
     VisualSuite.referenceImages s = [] ->
     VisualSuite.handleGenerateImage s =
     VisualSuite.with_error
       (Some (VisualSuite.ErrorText VisualSuite.NOTHING_TO_GENERATE)) s) /\
  (forall es : list VisualSuite.Event,
     Forall VisualSuite.has_input
       (VisualSuite.gateway (VisualSuite.run es))).
Proof.
  split.
  { intros s f H. unfold VisualExtractor.handleFileChange.
    by rewrite (accepted_false f H). }
  split; [intros es; apply extractor_run_inv|].
  split.
  { intros s f H. unfold VisualFitLay.handleFile. by rewrite H. }
  split; [intros es; apply fitlay_run_inv|].
  split.
  { intros s Hp Hr. unfold VisualSuite.handleGenerateImage.
    by rewrite Hp, Hr. }
  intros es. apply suite_run_requests.
Qed.

Lemma invalid_input_rejected_witness :
  (VisualExtractor.MAX_FILE_SIZE < file_size Scenarios.big_photo \/
   array_includes VisualExtractor.ACCEPTED_TYPES
     (file_type Scenarios.big_photo) = false) /\
  VisualExtractor.handleFileChange (Some Scenarios.big_photo)
    VisualExtractor.init =
  VisualExtractor.with_error
    (VisualExtractor.ErrorText VisualExtractor.INVALID_FILE)
    VisualExtractor.init /\
  startsWith (file_type Scenarios.pdf) (str "image/") = false /\
  VisualFitLay.handleFile (Some Scenarios.pdf) VisualFitLay.init =
  VisualFitLay.addLog VisualFitLay.INVALID_TYPE VisualFitLay.error
    VisualFitLay.init /\
  VisualSuite.prompt Scenarios.nothing_to_generate = [] /\
  VisualSuite.referenceImages Scenarios.nothing_to_generate = [] /\
  VisualSuite.handleGenerateImage Scenarios.nothing_to_generate =
  VisualSuite.with_error
    (Some (VisualSuite.ErrorText VisualSuite.NOTHING_TO_GENERATE))
    Scenarios.nothing_to_generate.
Proof.
  destruct invalid_input_rejected as (Hve & _ & Hfl & _ & Hvs & _).
  assert (Hbig : VisualExtractor.MAX_FILE_SIZE < file_size Scenarios.big_photo
                 \/ array_includes VisualExtractor.ACCEPTED_TYPES
                      (file_type Scenarios.big_photo) = false)
    by (left; reflexivity).
  split; [exact Hbig|].
  split; [exact (Hve VisualExtractor.init Scenarios.big_photo Hbig)|].
  split; [reflexivity|].
  split; [exact (Hfl VisualFitLay.init Scenarios.pdf eq_refl)|].
  split; [reflexivity|]. split; [reflexivity|].
  exact (Hvs Scenarios.nothing_to_generate eq_refl eq_refl).
Defined.

(** C8 as stated fails on FitLay: a PNG twice the 5 MB limit of the other
    tabs is taken without a report, and the detection request carries it. *)
Lemma oversized_image_reaches_gateway :
  VisualExtractor.MAX_FILE_SIZE < file_size Scenarios.big_photo /\
  VisualFitLay.logs
    (VisualFitLay.handleFile (Some Scenarios.big_photo) VisualFitLay.init)
    = [] /\
  VisualFitLay.inflight
    (VisualFitLay.handleFile (Some Scenarios.big_photo) VisualFitLay.init)
    = [VisualFitLay.ReaderPending Scenarios.big_photo] /\
  VisualFitLay.gateway (VisualFitLay.run Scenarios.big_photo_extracted) =
    [VisualFitLay.DetectRequest (file_type Scenarios.big_photo)
       (Some (file_data Scenarios.big_photo))].
Proof. repeat split; vm_compute; reflexivity. Qed.

(** ** Instances of the orchestrator claims *)

Section Instances.

Import VisualFitLay.

Lemma synthesis_settles_terminal_witness :
  itemVisuals init !! 0%nat = None /\
  failedItems init !! 0%nat = None /\
  Forall (fun e => event_index e <> 0%nat)
    [Started Scenarios.hat 1 None (str "image/png");
     Settles Scenarios.hat 1 (Rejected (str "503"))] /\
  item_state
    (extractItemVisual_resume Scenarios.shirt 0
       (Fulfilled (Scenarios.image_response (str "AAAA")))
       (foldl item_step
          (extractItemVisual Scenarios.shirt 0 None (str "image/png") init)
          [Started Scenarios.hat 1 None (str "image/png");
           Settles Scenarios.hat 1 (Rejected (str "503"))])) 0
  = Succeeded (imageUrl (str "AAAA")).
Proof.
  assert (Hsib : Forall (fun e => event_index e <> 0%nat)
            [Started Scenarios.hat 1 None (str "image/png");
             Settles Scenarios.hat 1 (Rejected (str "503"))])
    by (repeat constructor; simpl; lia).
  split; [reflexivity|]. split; [reflexivity|]. split; [exact Hsib|].
  destruct (synthesis_settles_terminal Scenarios.shirt 0
              (Fulfilled (Scenarios.image_response (str "AAAA"))))
    as [_ H].
  exact (proj2 (proj2 (proj2 (proj2
    (H init None (str "image/png") _ eq_refl eq_refl Hsib))))).
Defined.

Lemma synthesis_failure_isolated_witness :
  0%nat <> 1%nat /\
  delivered_image (Fulfilled Scenarios.text_only_response) = None /\
  delivered_image (Fulfilled (Scenarios.image_response (str "BBBB")))
    = Some (str "BBBB") /\
  flag (failedItems Scenarios.both_in_flight !! 1%nat) = false /\
  item_state
    (extractItemVisual_resume Scenarios.hat 1
       (Fulfilled (Scenarios.image_response (str "BBBB")))
       (extractItemVisual_resume Scenarios.shirt 0
          (Fulfilled Scenarios.text_only_response)
          Scenarios.both_in_flight)) 1
  = Succeeded (imageUrl (str "BBBB")).
Proof.
  assert (Hne : 0%nat <> 1%nat) by lia.
  assert (Hflag : flag (failedItems Scenarios.both_in_flight !! 1%nat) = false)
    by (vm_compute; reflexivity).
  split; [exact Hne|]. split; [reflexivity|]. split; [reflexivity|].
  split; [exact Hflag|].
  pose proof (synthesis_failure_isolated Scenarios.both_in_flight
                Scenarios.shirt Scenarios.hat 0 1
                (Fulfilled Scenarios.text_only_response)
                (Fulfilled (Scenarios.image_response (str "BBBB")))
                (str "BBBB") Hne eq_refl eq_refl Hflag) as H.
  exact (proj1 (proj2 (proj2 (proj2 (proj2 (proj2 (proj2 (proj2 (proj2 H))))))))).
Defined.

Lemma synthesis_fan_out_witness :
  inflight
    (processImage_resume (str "image/png") None
       (DetectItems [Scenarios.shirt; Scenarios.hat]) init) !! 1%nat
  = Some (SynthPending Scenarios.hat 1) /\
  0%nat <> 1%nat /\
  step
    (processImage_resume (str "image/png") None
       (DetectItems [Scenarios.shirt; Scenarios.hat]) init)
    (Deliver 1 (Synthesized (Rejected (str "503")))) =
  extractItemVisual_resume Scenarios.hat 1 (Rejected (str "503"))
    (wake 1
       (processImage_resume (str "image/png") None
          (DetectItems [Scenarios.shirt; Scenarios.hat]) init)) /\
  processingItems
    (processImage_resume (str "image/png") None
       (DetectItems [Scenarios.shirt; Scenarios.hat]) init) !! 0%nat
  = Some true /\
  itemVisuals
    (extractItemVisual_resume Scenarios.shirt 0
       (Fulfilled (Scenarios.image_response (str "AAAA"))) init) !! 1%nat
  = itemVisuals init !! 1%nat.
Proof.
  assert (Hne : 0%nat <> 1%nat) by lia.
  destruct (synthesis_fan_out init [Scenarios.shirt; Scenarios.hat]
              (str "image/png") None)
    as (_ & _ & _ & Hproc & _ & _ & Hstep & _ & Hown).
  split; [reflexivity|]. split; [exact Hne|].
  split; [exact (Hstep 1%nat Scenarios.hat 1%nat (Rejected (str "503")) eq_refl)|].
  split; [apply Hproc; simpl; lia|].
  exact (proj1 (Hown init Scenarios.shirt 0%nat
                  (Fulfilled (Scenarios.image_response (str "AAAA")))
                  1%nat Hne)).
Defined.

Lemma detection_failure_terminal_witness :
  truthy_opt (sourceImage Scenarios.photo_loaded) = true /\
  exists mime base64Data,
    gateway
      (processImage_resume mime base64Data (DetectThrows (str "fetch failed"))
         (wake (length (inflight Scenarios.photo_loaded))
            (processImage Scenarios.photo_loaded)))
    = gateway Scenarios.photo_loaded ++ [DetectRequest mime base64Data] /\
    extractedItems
      (processImage_resume mime base64Data (DetectThrows (str "fetch failed"))
         (wake (length (inflight Scenarios.photo_loaded))
            (processImage Scenarios.photo_loaded)))
    = [].
Proof.
  assert (Hsrc : truthy_opt (sourceImage Scenarios.photo_loaded) = true)
    by (vm_compute; reflexivity).
  split; [exact Hsrc|].
  destruct (detection_failure_terminal (str "fetch failed")) as [_ H].
  destruct (H Scenarios.photo_loaded Hsrc)
    as (mime & b & _ & Hg & _ & _ & He & _).
  exists mime, b. split; [exact Hg|exact He].
Defined.

End Instances.

Lemma reference_images_bounded_witness :
  (2 < length (List.filter VisualSuite.accepted [Scenarios.jpeg 3]) +
       length (VisualSuite.referenceImages Scenarios.two_references))%nat /\
  VisualSuite.suite_inv Scenarios.two_references /\
  VisualSuite.referenceImages
    (VisualSuite.handleFileChange (Some [Scenarios.jpeg 3])
       Scenarios.two_references)
  = VisualSuite.referenceImages Scenarios.two_references /\
  VisualSuite.error
    (VisualSuite.handleFileChange (Some [Scenarios.jpeg 3])
       Scenarios.two_references)
  = Some (VisualSuite.ErrorText VisualSuite.TOO_MANY).
Proof.
  assert (H3 : (2 < length (List.filter VisualSuite.accepted [Scenarios.jpeg 3])
                + length (VisualSuite.referenceImages
                            Scenarios.two_references))%nat)
    by (vm_compute; lia).
  destruct reference_images_bounded as (Hrun & _ & Hrej).
  split; [exact H3|].
  split; [exact (Hrun [VisualSuite.FilesChosen
                         (Some [Scenarios.jpeg 1; Scenarios.jpeg 2])])|].
  destruct (Hrej Scenarios.two_references [Scenarios.jpeg 3] H3)
    as (He & Hr & _).
  split; [exact Hr|exact He].
Defined.

(** * Further properties *)

(** ** Occurrences, pieces and trimming *)

Lemma startsWith_self_app (p r : jsstring) : startsWith (p ++ r) p = true.
Proof. induction p as [|c p IH]; simpl; [done|]. by rewrite N.eqb_refl. Qed.

Lemma startsWith_app_mono (u v p : jsstring) :
  startsWith u p = true -> startsWith (u ++ v) p = true.
Proof.
  revert u. induction p as [|c p IH]; intros [|d u]; simpl; try done.
  intros H. apply andb_true_iff in H as [-> H]. simpl. by apply IH.
Qed.

Lemma startsWith_long (u v p : jsstring) :
  (length p <= length u)%nat -> startsWith (u ++ v) p = startsWith u p.
Proof.
  revert u. induction p as [|c p IH]; intros [|d u] H; simpl in *;
    try done; try lia.
  f_equal. apply IH. lia.
Qed.

Lemma includes_cons (c : N) (s p : jsstring) :
  includes (c :: s) p = startsWith (c :: s) p || includes s p.
Proof. reflexivity. Qed.

Lemma includes_nil_nonempty (p : jsstring) : p <> [] -> includes [] p = false.
Proof. by destruct p. Qed.

Lemma includes_app_r (a b p : jsstring) :
  includes b p = true -> includes (a ++ b) p = true.
Proof.
  intros H. induction a as [|x a IH]; [done|].
  change ((x :: a) ++ b) with (x :: (a ++ b)).
  rewrite includes_cons, IH. apply orb_true_r.
Qed.

Lemma includes_app_l (b c p : jsstring) :
  includes b p = true -> includes (b ++ c) p = true.
Proof.
  induction b as [|x b IH]; intros H.
  - destruct p; [by destruct c|discriminate].
  - rewrite includes_cons in H.
    change ((x :: b) ++ c) with (x :: (b ++ c)). rewrite includes_cons.
    apply orb_true_iff in H as [H|H].
    + assert (H' : startsWith (x :: (b ++ c)) p = true)
        by exact (startsWith_app_mono (x :: b) c p H).
      by rewrite H'.
    + rewrite (IH H). apply orb_true_r.
Qed.

(** A string without an occurrence has none in any of its substrings. *)
Lemma includes_substring (a b c p : jsstring) :
  includes (a ++ b ++ c) p = false -> includes b p = false.
Proof.
  intros H. destruct (includes b p) eqn:E; [|done].
  by rewrite (includes_app_r a _ p (includes_app_l b c p E)) in H.
Qed.

Lemma includes_unit_app (a b : jsstring) (c : N) :
  includes (a ++ b) [c] = includes a [c] || includes b [c].
Proof.
  induction a as [|x a IH]; [done|].
  change ((x :: a) ++ b) with (x :: (a ++ b)).
  rewrite !includes_cons, IH. simpl. rewrite !andb_true_r.
  by rewrite orb_assoc.
Qed.

(** The first occurrence of a code unit cuts the string in two. *)
Lemma includes_unit_cut (c : N) (s : jsstring) :
  includes s [c] = true ->
  exists k rest, s = k ++ c :: rest /\ includes k [c] = false.
Proof.
  induction s as [|x s IH]; [discriminate|].
  rewrite includes_cons. simpl. rewrite andb_true_r.
  destruct (c =? x) eqn:E.
  - apply N.eqb_eq in E as <-. intros _. by exists [], s.
  - simpl. intros H. destruct (IH H) as (k & rest & -> & Hk).
    exists (x :: k), rest. split; [done|].
    rewrite includes_cons. simpl. by rewrite andb_true_r, E, Hk.
Qed.

Lemma trimStart_suffix (s : jsstring) : exists ws, s = ws ++ trimStart s.
Proof.
  induction s as [|c s [ws IH]]; [by exists []|]. simpl.
  destruct (isWhiteSpace c); [|by exists []].
  exists (c :: ws). simpl. by rewrite <- IH.
Qed.

Lemma trimEnd_prefix (s : jsstring) : exists ws, s = trimEnd s ++ ws.
Proof.
  unfold trimEnd. destruct (trimStart_suffix (reverse s)) as [ws H].
  exists (reverse ws). rewrite <- reverse_app, <- H. by rewrite reverse_involutive.
Qed.

Lemma trim_substring (s : jsstring) : exists a c, s = a ++ trim s ++ c.
Proof.
  unfold trim. destruct (trimStart_suffix s) as [a Ha].
  destruct (trimEnd_prefix (trimStart s)) as [c Hc].
  exists a, c. by rewrite <- Hc.
Qed.

Lemma trim_excludes (s p : jsstring) :
  includes s p = false -> includes (trim s) p = false.
Proof.
  intros H. destruct (trim_substring s) as (a & c & E).
  rewrite E in H. by apply includes_substring in H.
Qed.

Lemma split_from_skip (sep t rest : jsstring) :
  split_from sep (length t) (t ++ rest) = split_from sep 0 rest.
Proof. induction t as [|c t IH]; [done|]. simpl. exact IH. Qed.

Section Pieces.

Context (sep : jsstring) (Hsep : sep <> []).

(** The first piece is a prefix of the string without an occurrence. *)
Lemma split_head_piece (s piece : jsstring) (rest : list jsstring) :
  split s sep = piece :: rest ->
  (exists t, s = piece ++ t) /\ includes piece sep = false.
Proof.
  unfold split. revert piece rest.
  induction s as [|c s IH]; intros piece rest.
  - intros [= <- <-]. split; [by exists []|by apply includes_nil_nonempty].
  - rewrite split_from_cons.
    destruct (startsWith (c :: s) sep) eqn:E.
    + intros [= <- <-].
      split; [by exists (c :: s)|by apply includes_nil_nonempty].
    + destruct (split_from sep 0 s) as [|p r] eqn:Es;
        [by destruct (split_from_nonempty sep 0 s)|].
      intros [= <- <-].
      destruct (IH p r eq_refl) as ([t ->] & Hp).
      split; [by exists t|].
      rewrite includes_cons, Hp, orb_false_r.
      destruct (startsWith (c :: p) sep) eqn:E'; [|done].
      assert (E'' : startsWith (c :: (p ++ t)) sep = true)
        by exact (startsWith_app_mono (c :: p) t sep E').
      by rewrite E'' in E.
Qed.

(** When the first occurrence of the separator follows [k], the first
    piece is [k] and the split goes on after the separator. *)
Lemma split_first (k rest : jsstring) :
  first_at k sep = true ->
  split (k ++ sep ++ rest) sep = k :: split rest sep.
Proof.
  unfold first_at, split. intros H. apply negb_true_iff in H.
  induction k as [|x k IH].
  - destruct sep as [|c t] eqn:Esep; [done|]. simpl app.
    rewrite split_from_cons.
    change (c :: t ++ rest) with ((c :: t) ++ rest).
    rewrite startsWith_self_app.
    change (Init.Nat.pred (length (c :: t))) with (length t).
    by rewrite split_from_skip.
  - change ((x :: k) ++ removelast sep) with (x :: (k ++ removelast sep)) in H.
    rewrite includes_cons in H. apply orb_false_iff in H as [H1 H2].
    change ((x :: k) ++ sep ++ rest) with (x :: (k ++ sep ++ rest)).
    rewrite split_from_cons, (IH H2).
    assert (E : x :: k ++ sep ++ rest =
                (x :: k ++ removelast sep) ++ [List.last sep 0] ++ rest).
    { rewrite (app_removelast_last 0 Hsep) at 1.
      simpl. by rewrite <- !app_assoc. }
    rewrite E, startsWith_long, H1; [done|].
    simpl. rewrite length_app.
    pose proof (f_equal length (app_removelast_last 0 Hsep)) as Hl.
    rewrite length_app in Hl. simpl in Hl. lia.
Qed.

(** An occurrence that begins in a prefix of [k] begins in [k]. *)
Lemma first_at_suffix (a k : jsstring) :
  first_at (a ++ k) sep = true -> first_at k sep = true.
Proof.
  unfold first_at. intros H. apply negb_true_iff in H. apply negb_true_iff.
  rewrite <- app_assoc in H.
  destruct (includes (k ++ removelast sep) sep) eqn:E; [|done].
  by rewrite (includes_app_r a _ sep E) in H.
Qed.

End Pieces.

(** ** The report, for every text *)

Section ReportFacts.

Import VisualExtractor.

Lemma ANALISA_DNA_nonempty : ANALISA_DNA <> [].
Proof. intros H. apply (f_equal length) in H. vm_compute in H. discriminate. Qed.

Lemma FINAL_PROMPT_nonempty : FINAL_PROMPT <> [].
Proof. intros H. apply (f_equal length) in H. vm_compute in H. discriminate. Qed.

Lemma TIPS_KONSISTENSI_nonempty : TIPS_KONSISTENSI <> [].
Proof. intros H. apply (f_equal length) in H. vm_compute in H. discriminate. Qed.

Lemma or_empty_some (s : jsstring) : or_empty (Some s) = s.
Proof. by destruct s. Qed.

(** A report of the requested shape is cut where its delimiters stand:
    with each delimiter occurring once, first where the shape puts it, the
    DNA body is the text between the first two delimiters and the final
    prompt and the tips are the trimmed texts after the second and the
    third. *)
Theorem well_formed_report_sections (pre a b c : jsstring) :
  first_at pre ANALISA_DNA = true ->
  includes (a ++ FINAL_PROMPT ++ b ++ TIPS_KONSISTENSI ++ c) ANALISA_DNA
    = false ->
  first_at (pre ++ ANALISA_DNA ++ a) FINAL_PROMPT = true ->
  includes (b ++ TIPS_KONSISTENSI ++ c) FINAL_PROMPT = false ->
  first_at (pre ++ ANALISA_DNA ++ a ++ FINAL_PROMPT ++ b) TIPS_KONSISTENSI
    = true ->
  includes c TIPS_KONSISTENSI = false ->
  let result :=
    pre ++ ANALISA_DNA ++ a ++ FINAL_PROMPT ++ b ++ TIPS_KONSISTENSI ++ c in
  dna_body result = a /\
  dna_lines result = List.filter (fun line => includes line COLON) (split a LF) /\
  final_prompt result = Normal (Some (trim b)) /\
  final_prompt_text result = Normal (trim b) /\
  tips result = Some (trim c).
Proof.
  intros Hd1 Hd2 Hf1 Hf2 Ht1 Ht2 result.
  assert (Hfa : first_at a FINAL_PROMPT = true).
  { apply (first_at_suffix _ (pre ++ ANALISA_DNA)). by rewrite <- app_assoc. }
  assert (Htb : first_at b TIPS_KONSISTENSI = true).
  { apply (first_at_suffix _ (pre ++ ANALISA_DNA ++ a ++ FINAL_PROMPT)).
    by rewrite <- !app_assoc. }
  assert (Hbody : dna_body result = a).
  { unfold dna_body, result.
    rewrite (split_first _ ANALISA_DNA_nonempty pre _ Hd1).
    rewrite (split_absent _ _ Hd2). simpl.
    rewrite (split_first _ FINAL_PROMPT_nonempty a _ Hfa). simpl.
    apply or_empty_some. }
  assert (Hfinal : final_prompt result = Normal (Some (trim b))).
  { unfold final_prompt, result.
    replace (pre ++ ANALISA_DNA ++ a ++ FINAL_PROMPT ++ b ++
             TIPS_KONSISTENSI ++ c)
      with ((pre ++ ANALISA_DNA ++ a) ++ FINAL_PROMPT ++ b ++
            TIPS_KONSISTENSI ++ c) by (by rewrite <- !app_assoc).
    rewrite (split_first _ FINAL_PROMPT_nonempty _ _ Hf1).
    rewrite (split_absent _ _ Hf2). simpl.
    by rewrite (split_first _ TIPS_KONSISTENSI_nonempty b _ Htb). }
  split; [exact Hbody|]. split; [unfold dna_lines; by rewrite Hbody|].
  split; [exact Hfinal|].
  split; [unfold final_prompt_text; rewrite Hfinal; unfold bind;
          by rewrite or_empty_some|].
  unfold tips, result.
  replace (pre ++ ANALISA_DNA ++ a ++ FINAL_PROMPT ++ b ++
           TIPS_KONSISTENSI ++ c)
    with ((pre ++ ANALISA_DNA ++ a ++ FINAL_PROMPT ++ b) ++
          TIPS_KONSISTENSI ++ c) by (by rewrite <- !app_assoc).
  rewrite (split_first _ TIPS_KONSISTENSI_nonempty _ _ Ht1).
  by rewrite (split_absent _ _ Ht2).
Qed.

(** No section runs into the next: for every text the DNA body holds no
    final-prompt delimiter and the final-prompt text no tips delimiter. *)
Theorem sections_stop_at_next_delimiter (result : jsstring) :
  includes (dna_body result) FINAL_PROMPT = false /\
  exists body,
    final_prompt_text result = Normal body /\
    includes body TIPS_KONSISTENSI = false.
Proof.
  split.
  - unfold dna_body.
    destruct (split result ANALISA_DNA !! 1%nat) as [rest|]; [|done].
    destruct (split_head FINAL_PROMPT rest) as (p & r & E). rewrite E. simpl.
    destruct (split_head_piece _ FINAL_PROMPT_nonempty _ _ _ E) as [_ Hp].
    by destruct p.
  - unfold final_prompt_text, final_prompt.
    destruct (split result FINAL_PROMPT !! 1%nat) as [rest|].
    + destruct (split_head TIPS_KONSISTENSI rest) as (p & r & E).
      rewrite E. simpl.
      destruct (split_head_piece _ TIPS_KONSISTENSI_nonempty _ _ _ E)
        as [_ Hp].
      exists (or_empty (Some (trim p))). split; [done|].
      rewrite or_empty_some. by apply trim_excludes.
    + by exists [].
Qed.

(** Neither the key nor the value of a card holds a colon, whatever the
    line; the value is present exactly when the line has a colon. *)
Theorem dna_card_without_colon (line : jsstring) :
  exists k v,
    dna_entry line = Normal {| key := k; value := v |} /\
    includes k COLON = false /\
    match v with
    | Some t => includes line COLON = true /\ includes t COLON = false
    | None => includes line COLON = false
    end.
Proof.
  destruct (includes line COLON) eqn:E.
  - change COLON with [58] in E.
    destruct (includes_unit_cut 58 line E) as (k & rest & -> & Hk).
    change [58] with COLON in Hk.
    destruct (dna_entry_first_colon k rest Hk) as (v & more & Hv & Hentry).
    exists (trim k), (Some (trim v)).
    split; [exact Hentry|]. split; [by apply trim_excludes|].
    split; [done|]. apply trim_excludes.
    assert (Hne : COLON <> []).
    { intros H. apply (f_equal length) in H. vm_compute in H. discriminate. }
    by destruct (split_head_piece _ Hne _ _ _ Hv).
  - exists (trim line), None.
    split; [|split; [by apply trim_excludes|done]].
    unfold dna_entry, split_limit. by rewrite (split_absent _ _ E).
Qed.

End ReportFacts.

(** ** FitLay: file names and payloads *)

Section FitLayFiles.

Import VisualFitLay.

Lemma replace_runs_clean (in_run : bool) (r s : jsstring) :
  Forall (fun c => isWhiteSpace c = false) r ->
  Forall (fun c => isWhiteSpace c = false) (replace_runs_from in_run r s).
Proof.
  intros Hr. revert in_run. induction s as [|c s IH]; intros in_run; simpl;
    [constructor|].
  destruct (isWhiteSpace c) eqn:E.
  - destruct in_run; [apply IH|]. apply Forall_app. split; [done|apply IH].
  - constructor; [done|apply IH].
Qed.

Lemma replace_runs_id (in_run : bool) (r s : jsstring) :
  Forall (fun c => isWhiteSpace c = false) s ->
  replace_runs_from in_run r s = s.
Proof.
  intros H. revert in_run. induction H as [|c s Hc Hs IH]; intros in_run;
    simpl; [done|].
  by rewrite Hc, IH.
Qed.

Lemma replace_runs_length (in_run : bool) (r s : jsstring) :
  (length r <= 1)%nat ->
  (length (replace_runs_from in_run r s) <= length s)%nat.
Proof.
  intros Hr. revert in_run. induction s as [|c s IH]; intros in_run; simpl;
    [done|].
  destruct (isWhiteSpace c).
  - destruct in_run.
    + specialize (IH true). lia.
    + rewrite length_app. specialize (IH true). lia.
  - simpl. specialize (IH false). lia.
Qed.

(** The name of a downloaded file holds no whitespace, is no longer than
    the item name plus the extension, and replacing again changes nothing:
    a name without whitespace is kept as it is. *)
Theorem download_name_clean (filename : jsstring) :
  Forall (fun c => isWhiteSpace c = false) (download_name filename) /\
  (length (download_name filename) <= length filename + 4)%nat /\
  replace_whitespace_runs (download_name filename) (str "_")
    = download_name filename /\
  download_name (replace_whitespace_runs filename (str "_"))
    = download_name filename.
Proof.
  assert (Hu : Forall (fun c => isWhiteSpace c = false) (str "_"))
    by (vm_compute; repeat constructor).
  assert (Hj : Forall (fun c => isWhiteSpace c = false) (str ".jpg"))
    by (vm_compute; repeat constructor).
  assert (Hclean : Forall (fun c => isWhiteSpace c = false)
                     (download_name filename)).
  { unfold download_name, replace_whitespace_runs. apply Forall_app.
    split; [by apply replace_runs_clean|done]. }
  split; [exact Hclean|]. split.
  { unfold download_name, replace_whitespace_runs. rewrite length_app.
    pose proof (replace_runs_length false (str "_") filename).
    change (length (str ".jpg")) with 4%nat.
    change (length (str "_")) with 1%nat in *. lia. }
  split.
  { unfold replace_whitespace_runs at 1. by apply replace_runs_id. }
  unfold download_name. f_equal.
  unfold replace_whitespace_runs at 1. apply replace_runs_id.
  by apply replace_runs_clean.
Qed.

(** [split(',')[1]] of a data URL is the payload, for a type and a payload
    without a comma. *)
Lemma dataURL_payload (f : File) :
  includes (file_type f) (str ",") = false ->
  includes (file_data f) (str ",") = false ->
  split (dataURL f) (str ",") !! 1%nat = Some (file_data f).
Proof.
  change (str ",") with [44]. intros Ht Hd. unfold dataURL.
  replace (str "data:" ++ file_type f ++ str ";base64," ++ file_data f)
    with ((str "data:" ++ file_type f ++ str ";base64") ++ 44 :: file_data f).
  2:{ rewrite <- !app_assoc. reflexivity. }
  rewrite split_unit_first.
  - by rewrite (split_absent _ _ Hd).
  - rewrite !includes_unit_app, Ht. reflexivity.
Qed.

(** A chosen image is sent as it was read: once the file has loaded, the
    extract button issues a detection request with the type and the base64
    payload of that file. *)
Theorem loaded_image_is_sent_intact (s : State) (f : File) :
  truthy_opt (sourceImage s) = false ->
  isAnalyzing s = false ->
  startsWith (file_type f) (str "image/") = true ->
  includes (file_type f) (str ",") = false ->
  includes (file_data f) (str ",") = false ->
  let s1 := step s (ChooseFile (Some f)) in
  let s2 := step s1 (Deliver (length (inflight s)) FileLoaded) in
  let s3 := step s2 ClickExtract in
  sourceImage s2 = Some (dataURL f) /\
  gateway s3 =
    gateway s ++ [DetectRequest (file_type f) (Some (file_data f))] /\
  inflight s3 =
    inflight s ++ [DetectPending (file_type f) (Some (file_data f))] /\
  isAnalyzing s3 = true.
Proof.
  intros Hsrc Han Himg Ht Hd s1 s2 s3.
  assert (E1 : s1 = suspend None (ReaderPending f)
                      (setSourceMime (file_type f) s)).
  { subst s1. unfold step, handleFile. by rewrite Hsrc, Himg. }
  assert (E2 : s2 = reader_onload f (wake (length (inflight s)) s1)).
  { subst s2. unfold step. rewrite E1. simpl.
    by rewrite lookup_app_r, Nat.sub_diag by lia. }
  assert (Hs2 : sourceImage s2 = Some (dataURL f)) by by rewrite E2.
  assert (Hin2 : inflight s2 = inflight s).
  { rewrite E2, E1. simpl. apply delete_last. }
  assert (Hg2 : gateway s2 = gateway s).
  { rewrite E2, E1. simpl. apply app_nil_r. }
  assert (Hm2 : sourceMime s2 = file_type f) by by rewrite E2, E1.
  assert (Ha2 : isAnalyzing s2 = false) by by rewrite E2, E1.
  split; [exact Hs2|].
  clear E1 E2. clearbody s2. clear s1.
  subst s3. unfold step, processImage. rewrite Hs2, Ha2. simpl.
  change (truthy (dataURL f)) with true. simpl.
  rewrite Hg2, Hin2, Hm2, (dataURL_payload f Ht Hd). done.
Qed.

End FitLayFiles.

(** ** FitLay: invariants of every run *)

Section FitLayRuns.

Import VisualFitLay.

Lemma elem_of_delete_other {A} (x y : A) (n : nat) (l : list A) :
  x ∈ l -> l !! n = Some y -> x <> y -> x ∈ delete n l.
Proof.
  revert n. induction l as [|z l IH]; intros n Hx Hn Hne;
    [by apply elem_of_nil in Hx|].
  destruct n as [|n]; simpl in *.
  - injection Hn as ->. apply elem_of_cons in Hx as [->|Hx]; done.
  - apply elem_of_cons in Hx as [->|Hx]; [left|right; by eapply IH].
Qed.

Lemma resume_flags (item : Item) (index : nat) (out : Settled Response)
  (s : State) :
  let s' := extractItemVisual_resume item index out s in
  processingItems s' = <[index := false]> (processingItems s) /\
  isAnalyzing s' = isAnalyzing s /\
  logs s `prefix_of` logs s'.
Proof.
  cbv zeta. destruct (delivered_image out) as [d|] eqn:E.
  - rewrite (resume_delivered _ _ _ _ _ E). simpl.
    split; [done|]. split; [done|]. by apply prefix_app_r.
  - rewrite (resume_failed _ _ _ _ E). simpl.
    split; [done|]. split; [done|]. by apply prefix_app_r.
Qed.

Lemma forEach_logs (mime : jsstring) (b : option jsstring)
  (items : list Item) (k : nat) (s : State) :
  logs s `prefix_of`
  logs (forEach_from (fun item index => extractItemVisual item index b mime)
          k items s).
Proof.
  revert k s. induction items as [|item items IH]; intros k s; [done|].
  simpl. etransitivity; [|apply IH]. simpl. by apply prefix_app_r.
Qed.

Lemma busy_step (s : State) (e : Event) : busy_inv s -> busy_inv (step s e).
Proof.
  intros [Han Hpr]. destruct e as [file| | |n r]; simpl.
  - destruct (truthy_opt (sourceImage s)); [done|].
    unfold handleFile. destruct file as [f|]; [|done].
    destruct (startsWith (file_type f) (str "image/")); [|done].
    split; simpl.
    + intros H. destruct (Han H) as (m & b & Hin). exists m, b.
      apply elem_of_app. by left.
    + intros i H. destruct (Hpr i H) as (item & Hin). exists item.
      apply elem_of_app. by left.
  - destruct (truthy_opt (sourceImage s)); [|done].
    unfold reset. split; destruct (abortControllerRef s); simpl; try done;
      intros i H; by rewrite lookup_empty in H.
  - destruct (truthy_opt (sourceImage s) && negb (isAnalyzing s)); [|done].
    unfold processImage. destruct (sourceImage s) as [img|]; [|done].
    destruct (truthy img); [|done]. split; simpl.
    + intros _. eexists _, _. apply elem_of_app. right. apply list_elem_of_singleton.
      reflexivity.
    + intros i H. by rewrite lookup_empty in H.
  - destruct (inflight s !! n) as [p|] eqn:En; [|done].
    destruct p as [f|mime b|item index], r as [|out|out]; try done.
    + split; simpl.
      * intros H. destruct (Han H) as (m & b & Hin). exists m, b.
        by apply (elem_of_delete_other _ _ _ _ Hin En).
      * intros i H. destruct (Hpr i H) as (item & Hin). exists item.
        by apply (elem_of_delete_other _ _ _ _ Hin En).
    + destruct out as [items|message].
      * unfold processImage_resume, forEach.
        match goal with
        | |- context [forEach_from ?f 0%nat items ?s0] =>
            destruct (forEach_extract mime b items 0 s0)
              as (_ & Hi' & Hp' & _ & _ & _ & Ha' & _)
        end.
        split.
        { rewrite Ha'. simpl. discriminate. }
        intros i. rewrite Hp', Hi'. simpl. case_bool_decide as Hr.
        -- intros _. destruct (lookup_lt_is_Some_2 items i) as [item Hitem];
             [lia|]. exists item. apply elem_of_app. right.
           apply list_elem_of_lookup. exists i.
           by rewrite list_lookup_imap, Hitem.
        -- intros H. destruct (Hpr i H) as (item & Hin). exists item.
           apply elem_of_app. left.
           by apply (elem_of_delete_other _ _ _ _ Hin En).
      * split; simpl; [discriminate|].
        intros i H. destruct (Hpr i H) as (item & Hin). exists item.
        by apply (elem_of_delete_other _ _ _ _ Hin En).
    + destruct (resume_flags item index out (wake n s)) as (Hp' & Ha' & _).
      destruct (resume_frame item index out (wake n s)) as (_ & Hi' & _).
      split.
      * rewrite Ha', Hi'. simpl. intros H.
        destruct (Han H) as (m & b & Hin). exists m, b.
        by apply (elem_of_delete_other _ _ _ _ Hin En).
      * intros i. rewrite Hp', Hi'. simpl.
        destruct (decide (index = i)) as [->|Hne].
        { rewrite lookup_insert_eq. discriminate. }
        rewrite lookup_insert_ne by done. intros H.
        destruct (Hpr i H) as (item' & Hin). exists item'.
        apply (elem_of_delete_other _ _ _ _ Hin En). congruence.
Qed.

(** No spinner without a call behind it: in every reachable state, while
    the analysis spinner shows a detection call is suspended, and while an
    item is flagged as processing a synthesis call for its index is. *)
Theorem spinner_has_pending_call (es : list Event) : busy_inv (run es).
Proof.
  unfold run. induction es as [|e es IH] using rev_ind.
  - split; [discriminate|]. intros i H.
    change (processingItems (foldl step init [])) with (∅ : gmap nat bool) in H.
    by rewrite lookup_empty in H.
  - rewrite foldl_app. simpl. by apply busy_step.
Qed.

End FitLayRuns.

Section FitLayTrace.

Import VisualFitLay.

Lemma synth_after_detect_app (g new : list Request) :
  (forall i itemName mime b,
     g !! i = Some (SynthRequest itemName mime b) ->
     exists j, (j < i)%nat /\ g !! j = Some (DetectRequest mime b)) ->
  Forall (detection_behind g) new ->
  forall i itemName mime b,
    (g ++ new) !! i = Some (SynthRequest itemName mime b) ->
    exists j, (j < i)%nat /\ (g ++ new) !! j = Some (DetectRequest mime b).
Proof.
  intros Hg Hnew i itemName mime b Hi.
  destruct (decide (i < length g)%nat) as [Hlt|Hge].
  - rewrite lookup_app_l in Hi by done.
    destruct (Hg _ _ _ _ Hi) as (j & Hj & Hl). exists j. split; [done|].
    rewrite lookup_app_l by lia. done.
  - rewrite lookup_app_r in Hi by lia.
    assert (Hr : detection_behind g (SynthRequest itemName mime b)).
    { eapply Forall_lookup_1; [exact Hnew|exact Hi]. }
    simpl in Hr. apply list_elem_of_lookup in Hr as [j Hj].
    exists j. pose proof (lookup_lt_Some _ _ _ Hj).
    split; [lia|]. by rewrite lookup_app_l by lia.
Qed.

Lemma detect_step (s : State) (e : Event) :
  detect_first s -> detect_first (step s e).
Proof.
  intros [Hg Hp]. destruct e as [file| | |n r]; simpl.
  - destruct (truthy_opt (sourceImage s)); [done|].
    unfold handleFile. destruct file as [f|]; [|done].
    destruct (startsWith (file_type f) (str "image/")); [|done].
    split; simpl; rewrite app_nil_r; [done|].
    intros m b H. apply elem_of_app in H as [H|H]; [by apply Hp|].
    apply list_elem_of_singleton in H. discriminate.
  - destruct (truthy_opt (sourceImage s)); [|done].
    unfold reset. by destruct (abortControllerRef s).
  - destruct (truthy_opt (sourceImage s) && negb (isAnalyzing s)); [|done].
    unfold processImage. destruct (sourceImage s) as [img|]; [|done].
    destruct (truthy img); [|done]. split; simpl.
    + apply synth_after_detect_app; [done|]. by repeat constructor.
    + intros m b H. apply elem_of_app.
      apply elem_of_app in H as [H|H]; [left; by apply Hp|right].
      apply list_elem_of_singleton in H. injection H as -> ->.
      by apply list_elem_of_singleton.
  - destruct (inflight s !! n) as [p|] eqn:En; [|done].
    assert (Hwake : forall m b,
              DetectPending m b ∈ delete n (inflight s) ->
              DetectRequest m b ∈ gateway s).
    { intros m b H. apply Hp. by eapply list_elem_of_delete_inv. }
    destruct p as [f|mime b|item index], r as [|out|out]; try done.
    + destruct out as [items|message]; [|done].
      unfold processImage_resume, forEach.
      match goal with
      | |- context [forEach_from ?f 0%nat items ?s0] =>
          destruct (forEach_extract mime b items 0 s0) as (Hg' & Hi' & _)
      end.
      unfold detect_first. rewrite Hg', Hi'. simpl. split.
      * apply synth_after_detect_app; [done|].
        apply Forall_fmap, Forall_true. intros item. simpl.
        apply Hp. by eapply list_elem_of_lookup_2.
      * intros m b' H. apply elem_of_app. left.
        apply elem_of_app in H as [H|H]; [by apply Hwake|].
        apply list_elem_of_lookup in H as [i H].
        rewrite list_lookup_imap in H. by destruct (items !! i).
    + destruct (resume_frame item index out (wake n s)) as (_ & Hi' & Hg').
      unfold detect_first. by rewrite Hi', Hg'.
Qed.

(** No synthesis without a detection: in every run each synthesis request
    on the Gateway trace comes after a detection request for the same type
    and payload. *)
Theorem synthesis_follows_detection (es : list Event) :
  forall i itemName mime base64Data,
    gateway (run es) !! i = Some (SynthRequest itemName mime base64Data) ->
    exists j, (j < i)%nat /\
      gateway (run es) !! j = Some (DetectRequest mime base64Data).
Proof.
  enough (H : detect_first (run es)) by exact (proj1 H).
  unfold run. induction es as [|e es IH] using rev_ind.
  - split; [intros i ? ? ? H; by destruct i|].
    intros m b H. by apply elem_of_nil in H.
  - rewrite foldl_app. simpl. by apply detect_step.
Qed.

(** The log only grows between resets, and a reset leaves the single
    system entry. *)
Theorem log_append_only (s : State) (e : Event) :
  (e <> ClickReset -> logs s `prefix_of` logs (step s e)) /\
  (truthy_opt (sourceImage s) = true ->
   logs (step s ClickReset) =
     [{| msg := str "System reset. Ready for new input."; type := system |}]).
Proof.
  split.
  - intros He. destruct e as [file| | |n r]; simpl; [| done | |].
    + destruct (truthy_opt (sourceImage s)); [done|].
      unfold handleFile. destruct file as [f|];
        [destruct (startsWith (file_type f) (str "image/"))|];
        simpl; try done; by apply prefix_app_r.
    + destruct (truthy_opt (sourceImage s) && negb (isAnalyzing s)); [|done].
      unfold processImage. destruct (sourceImage s) as [img|]; [|done].
      destruct (truthy img); [|done]. simpl. by apply prefix_app_r.
    + destruct (inflight s !! n) as [p|]; [|done].
      destruct p as [f|mime b|item index], r as [|out|out]; try done.
      * simpl. by apply prefix_app_r.
      * destruct out as [items|message]; simpl; [|by apply prefix_app_r].
        unfold forEach. etransitivity; [|apply forEach_logs].
        simpl. by apply prefix_app_r.
      * by destruct (resume_flags item index out (wake n s)) as (_ & _ & H).
  - intros H. simpl. rewrite H. unfold reset.
    by destruct (abortControllerRef s).
Qed.

End FitLayTrace.

Section CompletionOrder.

Import VisualFitLay.

Lemma settle_all_other (answers : list (Item * nat * Settled Response))
  (i : nat) :
  i ∉ (fun a => a.1.2) <$> answers ->
  Forall (fun e => event_index e <> i) (settle_all answers).
Proof.
  intros H. unfold settle_all. apply Forall_fmap, Forall_forall.
  intros a Ha. simpl. intros Heq. apply H.
  apply list_elem_of_fmap. by exists a.
Qed.

(** The card of an item whose call is answered within a batch. *)
Lemma settled_in_batch (s : State)
  (pre post : list (Item * nat * Settled Response))
  (item : Item) (i : nat) (out : Settled Response) :
  failedItems s !! i = None ->
  i ∉ (fun a => a.1.2) <$> pre ->
  i ∉ (fun a => a.1.2) <$> post ->
  item_state
    (foldl item_step s (settle_all (pre ++ (item, i, out) :: post))) i
  = settled_state out.
Proof.
  intros Hf Hpre Hpost.
  assert (Eapp : settle_all (pre ++ (item, i, out) :: post) =
                 settle_all pre ++ Settles item i out :: settle_all post)
    by (unfold settle_all; by rewrite fmap_app).
  rewrite Eapp, foldl_app. clear Eapp.
  change (foldl item_step (foldl item_step s (settle_all pre))
            (Settles item i out :: settle_all post))
    with (foldl item_step
            (extractItemVisual_resume item i out
               (foldl item_step s (settle_all pre)))
            (settle_all post)).
  set (s1 := foldl item_step s (settle_all pre)).
  destruct (item_steps_other _ s i (settle_all_other pre i Hpre))
    as (_ & _ & Hf1).
  fold s1 in Hf1. rewrite Hf in Hf1.
  set (s2 := extractItemVisual_resume item i out s1).
  destruct (item_steps_other _ s2 i (settle_all_other post i Hpost))
    as (Hv & Hp & Hf2).
  rewrite (item_state_ext s2 _ i Hv Hp Hf2).
  subst s2. unfold settled_state.
  destruct (delivered_image out) as [d|] eqn:E.
  - by rewrite (item_state_after_delivery _ _ _ _ _ E), Hf1.
  - by rewrite (item_state_after_failure _ _ _ _ E).
Qed.

(** The order of completion does not matter: when the calls of distinct
    indices, none of them marked failed before, are answered in any order,
    each item ends as Succeeded with its own image or as Failed according to
    its own answer alone; so two orders of the same answers give every card
    the same state. *)
Theorem completion_order_irrelevant (s : State)
  (answers : list (Item * nat * Settled Response)) :
  NoDup ((fun a => a.1.2) <$> answers) ->
  (forall a, a ∈ answers -> failedItems s !! a.1.2 = None) ->
  (forall item i out,
     (item, i, out) ∈ answers ->
     item_state (foldl item_step s (settle_all answers)) i
     = settled_state out) /\
  (forall answers' i,
     answers ≡ₚ answers' ->
     item_state (foldl item_step s (settle_all answers')) i =
     item_state (foldl item_step s (settle_all answers)) i).
Proof.
  intros Hnd Hclean.
  assert (Hone : forall l, NoDup ((fun a => a.1.2) <$> l) ->
            (forall a, a ∈ l -> failedItems s !! a.1.2 = None) ->
            forall item i out, (item, i, out) ∈ l ->
            item_state (foldl item_step s (settle_all l)) i
            = settled_state out).
  { intros l Hl Hc item i out Hin.
    apply list_elem_of_split in Hin as (pre & post & ->).
    rewrite fmap_app in Hl. simpl in Hl.
    apply NoDup_app in Hl as (_ & Hdisj & Hpost).
    apply NoDup_cons in Hpost as [Hpost _].
    apply settled_in_batch; [|intros H; apply (Hdisj i H); by left|done].
    apply (Hc (item, i, out)). apply elem_of_app. right. by left. }
  split; [exact (Hone answers Hnd Hclean)|].
  intros answers' i Hperm.
  destruct (decide (i ∈ (fun a => a.1.2) <$> answers)) as [Hin|Hout].
  - apply list_elem_of_fmap in Hin as ([[item i'] out] & -> & Hin). simpl.
    rewrite (Hone answers Hnd Hclean item i' out Hin).
    apply (Hone answers') with (item := item).
    + by rewrite <- Hperm.
    + intros a Ha. apply Hclean. by rewrite Hperm.
    + by rewrite <- Hperm.
  - assert (Hout' : i ∉ (fun a => a.1.2) <$> answers') by by rewrite <- Hperm.
    destruct (item_steps_other _ s i (settle_all_other answers i Hout))
      as (Hv & Hp & Hf).
    destruct (item_steps_other _ s i (settle_all_other answers' i Hout'))
      as (Hv' & Hp' & Hf').
    rewrite (item_state_ext s _ i Hv Hp Hf).
    by rewrite (item_state_ext s _ i Hv' Hp' Hf').
Qed.

End CompletionOrder.

(** ** VisualSuite: what is held and what is sent *)

Section SuiteFacts.

Import VisualSuite.

Lemma filter_out_from_delete {A} (index i : nat) (xs : list A) :
  filter_out_from index i xs =
  if decide (i <= index)%nat then delete (index - i)%nat xs else xs.
Proof.
  revert i. induction xs as [|x xs IH]; intros i; simpl.
  - by case_decide.
  - rewrite IH. destruct (Nat.eqb_spec i index) as [->|Hne].
    + rewrite Nat.sub_diag. rewrite decide_False by lia.
      by rewrite decide_True by lia.
    + case_decide as Hle.
      * rewrite decide_True by lia.
        replace (index - i)%nat with (S (index - S i)) by lia. done.
      * by rewrite decide_False by lia.
Qed.

Lemma filter_out_delete {A} (index : nat) (xs : list A) :
  filter_out index xs = delete index xs.
Proof.
  unfold filter_out. rewrite filter_out_from_delete.
  rewrite decide_True by lia. by rewrite Nat.sub_0_r.
Qed.

Lemma zip_delete {A B} (i : nat) (xs : list A) (ys : list B) :
  zip (delete i xs) (delete i ys) = delete i (zip xs ys).
Proof.
  revert i ys. induction xs as [|x xs IH]; intros i ys; [done|].
  destruct ys as [|y ys].
  - destruct i; simpl; [by destruct xs|done].
  - destruct i; simpl; [done|]. by rewrite IH.
Qed.

(** Removing a reference deletes the image and the URL at that position
    and nothing else: the lists after it move up by one, image and URL stay
    paired, and a position beyond the end removes nothing. *)
Theorem remove_reference_deletes_pair (s : State) (index : nat) :
  let s' := handleRemoveReferenceImage index s in
  referenceImages s' = delete index (referenceImages s) /\
  referenceImageUrls s' = delete index (referenceImageUrls s) /\
  zip (referenceImages s') (referenceImageUrls s') =
    delete index (zip (referenceImages s) (referenceImageUrls s)) /\
  (forall k,
     referenceImages s' !! k =
     referenceImages s !! (if decide (k < index)%nat then k else S k)) /\
  ((length (referenceImages s) <= index)%nat ->
   referenceImages s' = referenceImages s).
Proof.
  cbv zeta. unfold handleRemoveReferenceImage. simpl.
  rewrite !filter_out_delete.
  split; [done|]. split; [done|]. split; [apply zip_delete|].
  split.
  - intros k. case_decide.
    + by apply list_lookup_delete_lt.
    + apply list_lookup_delete_ge. lia.
  - intros H. rewrite delete_take_drop.
    rewrite take_ge, drop_ge by lia. apply app_nil_r.
Qed.

Lemma suite_step_gateway (s : State) (e : Event) :
  gateway (step s e) = gateway s \/
  exists text,
    gateway (step s e) =
    gateway s ++ [{| req_images := referenceImages s; req_text := text |}].
Proof.
  destruct e as [files|index|p|p| |out|]; simpl; try by left.
  - destruct files as [fs|]; simpl; [|by left].
    by destruct (2 <? _)%nat; left.
  - unfold handleGenerateImage. destruct (_ && _); [by left|].
    right. by eexists.
  - destruct out; by left.
  - unfold handleEditImage. destruct (imageToEdit s); by left.
Qed.

(** No generate request carries more than two reference images. *)
Theorem request_images_bounded (es : list Event) :
  Forall (fun r => (length (req_images r) <= 2)%nat) (gateway (run es)).
Proof.
  induction es as [|e es IH] using rev_ind; [constructor|].
  unfold run in *. rewrite foldl_app. simpl.
  destruct (suite_step_gateway (foldl step init es) e) as [->|[text ->]];
    [done|].
  apply Forall_app. split; [done|]. constructor; [|constructor]. simpl.
  exact (proj1 (suite_run_inv es)).
Qed.

Lemma returned_snoc (es : list Event) (e : Event) (f : File) :
  f ∈ returned es -> f ∈ returned (es ++ [e]).
Proof.
  intros H. unfold returned. rewrite omap_app. apply elem_of_app. by left.
Qed.

Lemma vetted_snoc (es : list Event) (e : Event) (f : File) :
  vetted es f -> vetted (es ++ [e]) f.
Proof. intros [H|H]; [by left|right; by apply returned_snoc]. Qed.

Lemma suite_origin (es : list Event) :
  Forall (vetted es) (referenceImages (run es)) /\
  (forall f, imageToEdit (run es) = Some f -> f ∈ returned es) /\
  Forall (fun r => Forall (vetted es) (req_images r)) (gateway (run es)).
Proof.
  induction es as [|e es (Hr & He & Hg)] using rev_ind.
  - split; [constructor|]. split; [discriminate|constructor].
  - assert (Hr' : Forall (vetted (es ++ [e])) (referenceImages (run es)))
      by (eapply Forall_impl; [exact Hr|apply vetted_snoc]).
    assert (Hg' : Forall (fun r => Forall (vetted (es ++ [e])) (req_images r))
                    (gateway (run es))).
    { eapply Forall_impl; [exact Hg|]. intros r H.
      eapply Forall_impl; [exact H|apply vetted_snoc]. }
    assert (He' : forall f, imageToEdit (run es) = Some f ->
                            f ∈ returned (es ++ [e]))
      by (intros f H; by apply returned_snoc, He).
    unfold run in *. rewrite foldl_app. simpl.
    set (s := foldl step init es) in *.
    destruct e as [files|index|p|p| |out|]; simpl; try done.
    + destruct files as [fs|]; simpl; [|done].
      destruct (2 <? _)%nat; [done|]. simpl.
      split; [|done]. apply Forall_app. split; [done|].
      apply Forall_forall. intros f Hf. left.
      apply list_elem_of_In, filter_In in Hf. tauto.
    + split; [|done]. rewrite filter_out_delete.
      apply Forall_forall. intros f Hf.
      apply list_elem_of_delete_inv in Hf.
      by apply (proj1 (Forall_forall _ _) Hr').
    + unfold handleGenerateImage. destruct (_ && _); [done|]. simpl.
      split; [done|]. split; [done|].
      apply Forall_app. split; [done|]. by constructor.
    + destruct out as [file| |message]; simpl; try done.
      split; [done|]. split; [|done].
      intros f [= <-]. unfold returned. rewrite omap_app.
      apply elem_of_app. right. simpl. by left.
    + unfold handleEditImage. destruct (imageToEdit s) as [file|] eqn:E.
      * simpl. split; [|done].
        constructor; [|constructor]. right. by apply He'.
      * split; [done|]. split; [|done].
        intros f Hf. rewrite E in Hf. discriminate.
Qed.

(** Whatever is held as a reference, and whatever a generate request
    carries, passed the upload validation or came back from the Gateway:
    an upload that fails the validation is dropped and never sent. *)
Theorem reference_images_vetted (es : list Event) :
  Forall (vetted es) (referenceImages (run es)) /\
  Forall (fun r => Forall (vetted es) (req_images r)) (gateway (run es)).
Proof.
  destruct (suite_origin es) as (Hr & _ & Hg). by split.
Qed.


End SuiteFacts.

(** ** VisualExtractor: when a request goes out *)

(** [handleAnalyze] either refuses, leaving the Gateway trace as it is and
    the error set (no image, no mode, or the Pro model without a selected
    key), or it sends exactly one request for the held image and the chosen
    mode, with the error and the former result cleared; a Pro request goes
    out only with a selected key. *)
Theorem analyze_sends_only_when_ready (s : VisualExtractor.State) (k : bool) :
  let s' := VisualExtractor.handleAnalyze k s in
  (VisualExtractor.gateway s' = VisualExtractor.gateway s /\
   is_Some (VisualExtractor.error s') /\
   VisualExtractor.imageFile s' = VisualExtractor.imageFile s /\
   (VisualExtractor.imageFile s = None \/
    VisualExtractor.analysisMode s = None \/
    (VisualExtractor.modelType s = VisualExtractor.PRO /\ k = false))) \/
  (exists f m,
     VisualExtractor.imageFile s = Some f /\
     VisualExtractor.analysisMode s = Some m /\
     (VisualExtractor.modelType s = VisualExtractor.FLASH \/ k = true) /\
     VisualExtractor.gateway s' =
       VisualExtractor.gateway s ++
       [{| VisualExtractor.req_model := VisualExtractor.modelType s;
           VisualExtractor.req_mode := m;
           VisualExtractor.req_file := f |}] /\
     VisualExtractor.loading s' = true /\
     VisualExtractor.error s' = None /\
     VisualExtractor.result s' = None).
Proof.
  cbv zeta. unfold VisualExtractor.handleAnalyze.
  destruct (VisualExtractor.imageFile s) as [f|] eqn:Ef.
  2:{ left. simpl. rewrite Ef. eauto 10. }
  destruct (VisualExtractor.analysisMode s) as [m|] eqn:Em.
  2:{ left. simpl. rewrite Ef. eauto 10. }
  destruct (VisualExtractor.modelType s) eqn:Emt, k; simpl.
  - right. exists f, m. eauto 10.
  - right. exists f, m. eauto 10.
  - right. exists f, m. eauto 10.
  - left. eauto 10.
Qed.

(** ** Instances of the further properties *)

Lemma well_formed_report_sections_witness :
  first_at [] VisualExtractor.ANALISA_DNA = true /\
  includes (Scenarios.example_dna ++ VisualExtractor.FINAL_PROMPT ++
            Scenarios.example_final ++ VisualExtractor.TIPS_KONSISTENSI ++
            Scenarios.example_tips) VisualExtractor.ANALISA_DNA = false /\
  first_at ([] ++ VisualExtractor.ANALISA_DNA ++ Scenarios.example_dna)
    VisualExtractor.FINAL_PROMPT = true /\
  includes (Scenarios.example_final ++ VisualExtractor.TIPS_KONSISTENSI ++
            Scenarios.example_tips) VisualExtractor.FINAL_PROMPT = false /\
  first_at ([] ++ VisualExtractor.ANALISA_DNA ++ Scenarios.example_dna ++
            VisualExtractor.FINAL_PROMPT ++ Scenarios.example_final)
    VisualExtractor.TIPS_KONSISTENSI = true /\
  includes Scenarios.example_tips VisualExtractor.TIPS_KONSISTENSI = false /\
  VisualExtractor.dna_body
    ([] ++ VisualExtractor.ANALISA_DNA ++ Scenarios.example_dna ++
     VisualExtractor.FINAL_PROMPT ++ Scenarios.example_final ++
     VisualExtractor.TIPS_KONSISTENSI ++ Scenarios.example_tips)
  = Scenarios.example_dna /\
  VisualExtractor.tips
    ([] ++ VisualExtractor.ANALISA_DNA ++ Scenarios.example_dna ++
     VisualExtractor.FINAL_PROMPT ++ Scenarios.example_final ++
     VisualExtractor.TIPS_KONSISTENSI ++ Scenarios.example_tips)
  = Some (trim Scenarios.example_tips).
Proof.
  pose proof (well_formed_report_sections [] Scenarios.example_dna
                Scenarios.example_final Scenarios.example_tips
                eq_refl eq_refl eq_refl eq_refl eq_refl eq_refl) as H.
  do 6 (split; [reflexivity|]).
  split; [exact (proj1 H)|exact (proj2 (proj2 (proj2 (proj2 H))))].
Defined.

Lemma loaded_image_is_sent_intact_witness :
  truthy_opt (VisualFitLay.sourceImage VisualFitLay.init) = false /\
  VisualFitLay.isAnalyzing VisualFitLay.init = false /\
  startsWith (file_type Scenarios.photo) (str "image/") = true /\
  includes (file_type Scenarios.photo) (str ",") = false /\
  includes (file_data Scenarios.photo) (str ",") = false /\
  VisualFitLay.gateway
    (VisualFitLay.step
       (VisualFitLay.step
          (VisualFitLay.step VisualFitLay.init
             (VisualFitLay.ChooseFile (Some Scenarios.photo)))
          (VisualFitLay.Deliver
             (length (VisualFitLay.inflight VisualFitLay.init))
             VisualFitLay.FileLoaded))
       VisualFitLay.ClickExtract)
  = VisualFitLay.gateway VisualFitLay.init ++
    [VisualFitLay.DetectRequest (file_type Scenarios.photo)
       (Some (file_data Scenarios.photo))].
Proof.
  do 5 (split; [reflexivity|]).
  exact (proj1 (proj2 (loaded_image_is_sent_intact VisualFitLay.init
                         Scenarios.photo eq_refl eq_refl eq_refl eq_refl
                         eq_refl))).
Defined.

Lemma synthesis_follows_detection_witness :
  VisualFitLay.gateway (VisualFitLay.run Scenarios.late_after_new_run)
    !! 3%nat
  = Some (VisualFitLay.SynthRequest (str "hat") (str "image/png")
            (Some (file_data Scenarios.photo))) /\
  exists j, (j < 3)%nat /\
    VisualFitLay.gateway (VisualFitLay.run Scenarios.late_after_new_run) !! j
    = Some (VisualFitLay.DetectRequest (str "image/png")
              (Some (file_data Scenarios.photo))).
Proof.
  assert (H : VisualFitLay.gateway
                (VisualFitLay.run Scenarios.late_after_new_run) !! 3%nat
              = Some (VisualFitLay.SynthRequest (str "hat") (str "image/png")
                        (Some (file_data Scenarios.photo))))
    by (vm_compute; reflexivity).
  split; [exact H|].
  exact (synthesis_follows_detection Scenarios.late_after_new_run
           3%nat _ _ _ H).
Defined.

Lemma log_append_only_witness :
  VisualFitLay.ClickExtract <> VisualFitLay.ClickReset /\
  truthy_opt (VisualFitLay.sourceImage Scenarios.photo_loaded) = true /\
  VisualFitLay.logs Scenarios.photo_loaded `prefix_of`
    VisualFitLay.logs
      (VisualFitLay.step Scenarios.photo_loaded VisualFitLay.ClickExtract) /\
  length (VisualFitLay.logs
            (VisualFitLay.step Scenarios.photo_loaded VisualFitLay.ClickReset))
  = 1%nat.
Proof.
  assert (Hne : VisualFitLay.ClickExtract <> VisualFitLay.ClickReset)
    by discriminate.
  assert (Hsrc : truthy_opt (VisualFitLay.sourceImage Scenarios.photo_loaded)
                 = true) by (vm_compute; reflexivity).
  split; [exact Hne|]. split; [exact Hsrc|].
  split.
  - exact (proj1 (log_append_only Scenarios.photo_loaded
                    VisualFitLay.ClickExtract) Hne).
  - rewrite (proj2 (log_append_only Scenarios.photo_loaded
                      VisualFitLay.ClickExtract) Hsrc).
    reflexivity.
Defined.

Lemma completion_order_irrelevant_witness :
  NoDup ((fun a => a.1.2) <$> Scenarios.hat_then_shirt) /\
  (forall a, a ∈ Scenarios.hat_then_shirt ->
     VisualFitLay.failedItems Scenarios.both_in_flight !! a.1.2 = None) /\
  Scenarios.hat_then_shirt ≡ₚ reverse Scenarios.hat_then_shirt /\
  VisualFitLay.item_state
    (foldl VisualFitLay.item_step Scenarios.both_in_flight
       (VisualFitLay.settle_all Scenarios.hat_then_shirt)) 1
  = VisualFitLay.Succeeded (VisualFitLay.imageUrl (str "BBBB")) /\
  VisualFitLay.item_state
    (foldl VisualFitLay.item_step Scenarios.both_in_flight
       (VisualFitLay.settle_all (reverse Scenarios.hat_then_shirt))) 0
  = VisualFitLay.item_state
      (foldl VisualFitLay.item_step Scenarios.both_in_flight
         (VisualFitLay.settle_all Scenarios.hat_then_shirt)) 0.
Proof.
  assert (Hnd : NoDup ((fun a => a.1.2) <$> Scenarios.hat_then_shirt)).
  { apply NoDup_cons. split; [|apply NoDup_singleton].
    intros H. apply list_elem_of_singleton in H. discriminate. }
  assert (Hclean : forall a, a ∈ Scenarios.hat_then_shirt ->
            VisualFitLay.failedItems Scenarios.both_in_flight !! a.1.2 = None).
  { intros a Ha. apply elem_of_cons in Ha as [->|Ha]; [reflexivity|].
    apply list_elem_of_singleton in Ha as ->. reflexivity. }
  assert (Hperm : Scenarios.hat_then_shirt ≡ₚ reverse Scenarios.hat_then_shirt)
    by (symmetry; apply reverse_Permutation).
  destruct (completion_order_irrelevant Scenarios.both_in_flight
              Scenarios.hat_then_shirt Hnd Hclean) as [Hone Hboth].
  split; [exact Hnd|]. split; [exact Hclean|]. split; [exact Hperm|].
  split.
  - apply (Hone Scenarios.hat 1%nat
             (Fulfilled (Scenarios.image_response (str "BBBB")))).
    by left.
  - exact (Hboth _ 0%nat Hperm).
Defined.

Lemma remove_reference_deletes_pair_witness :
  (length (VisualSuite.referenceImages Scenarios.two_references) <= 5)%nat /\
  VisualSuite.referenceImages
    (VisualSuite.handleRemoveReferenceImage 5 Scenarios.two_references)
  = VisualSuite.referenceImages Scenarios.two_references.
Proof.
  assert (H : (length (VisualSuite.referenceImages Scenarios.two_references)
               <= 5)%nat) by (vm_compute; lia).
  split; [exact H|].
  exact (proj2 (proj2 (proj2 (proj2
    (remove_reference_deletes_pair Scenarios.two_references 5)))) H).
Defined.

Lemma dna_entry_single_colon_witness :
  includes (str "SUBJECT") VisualExtractor.COLON = false /\
  includes (str " a person") VisualExtractor.COLON = false /\
  VisualExtractor.dna_entry
    (str "SUBJECT" ++ VisualExtractor.COLON ++ str " a person") =
  Normal {| VisualExtractor.key := trim (str "SUBJECT");
            VisualExtractor.value := Some (trim (str " a person")) |}.
Proof.
  split; [reflexivity|]. split; [reflexivity|].
  exact (dna_entry_single_colon (str "SUBJECT") (str " a person")
           eq_refl eq_refl).
Defined.
